(** * CO2 emission calculator (streamlit_app.py): model and verification

    The program multiplies three consumption figures by published emission
    factors, sums the products, and presents them as a results table, a bar
    chart and a PDF report.

    Numbers.  Python's [float] is modelled by the exact rationals [Qc]
    (canonical fractions, so that equal numbers are equal terms).  Every
    statement below is therefore a statement of exact arithmetic; rounding
    of binary64 operations is outside the model.  Division keeps the one
    behaviour of Python's [/] that the program can observe: a zero divisor
    raises [ZeroDivisionError].

    Mappings.  A Python [dict] is an association list in insertion order
    with at most one binding per key ([dict_set] updates in place or appends).

    The calculator is also written out once over binary64 floats
    ([bereken_emissies_b64]) to check that the worked example comes out the
    same in IEEE arithmetic.

    Effects.  Functions run in a state-and-exception monad over a [world]
    made of the module global [EMISSIEFACTOREN], Streamlit's session state
    and the widgets drawn during the current run of the script. *)

From Stdlib Require Import QArith Qcanon Qround ZArith String Ascii List Bool Lia Lqa.
From Stdlib Require Import DecimalString DecimalN Floats.
Import ListNotations.

Set Warnings "-inexact-float".

Local Open Scope string_scope.
Local Open Scope Z_scope.
Local Open Scope Qc_scope.

(** ** Numbers *)

(** Python's [x > y] on numbers. *)
Definition Qc_gtb (x y : Qc) : bool :=
  match x ?= y with Gt => true | _ => false end.

(** Python's [x == y] on numbers. *)
Definition Qc_eqb (x y : Qc) : bool :=
  match x ?= y with Eq => true | _ => false end.

(** A decimal literal of the source, e.g. [dec 2.085]. *)
Definition dec (q : Q) : Qc := Q2Qc q.

(** ** Fixed-point formatting: [f'{x:.nf}']

    Python prints the decimal numeral with [n] fractional digits that is
    nearest to the value, a tie going to the even last digit. *)

Definition round_half_even (q : Q) : Z :=
  let f := Qfloor q in
  match Qcompare (q - inject_Z f) (1 # 2) with
  | Lt => f
  | Gt => (f + 1)%Z
  | Eq => if Z.even f then f else (f + 1)%Z
  end.

(** The value of [x] in units of [10^-n], rounded: the integer whose digits
    are printed. *)
Definition quantize (n : nat) (x : Qc) : Z :=
  round_half_even (this x * inject_Z (10 ^ Z.of_nat n)).

Definition digit_char (d : Z) : ascii :=
  ascii_of_nat (48 + Z.to_nat d).

(** The last [n] decimal digits of [m], most significant first. *)
Fixpoint frac_digits (n : nat) (m : Z) : string :=
  match n with
  | O => EmptyString
  | S k => frac_digits k (m / 10) ++ String (digit_char (m mod 10)) EmptyString
  end.

Definition int_digits (m : Z) : string :=
  NilZero.string_of_uint (N.to_uint (Z.to_N m)).

(** The numeral of [m] units of [10^-n], for [m >= 0]. *)
Definition decimaal (n : nat) (m : Z) : string :=
  let p := (10 ^ Z.of_nat n)%Z in
  int_digits (m / p)
    ++ (match n with O => "" | _ => "." ++ frac_digits n (m mod p) end).

Definition format_f (n : nat) (x : Qc) : string :=
  (if Qc_gtb 0 x then "-" else "") ++ decimaal n (Z.abs (quantize n x)).

(** Reading a printed number back.  [cijfer] is the value of a digit. *)
Definition cijfer (c : ascii) : option Z :=
  match c with
  | "0"%char => Some 0%Z | "1"%char => Some 1%Z | "2"%char => Some 2%Z
  | "3"%char => Some 3%Z | "4"%char => Some 4%Z | "5"%char => Some 5%Z
  | "6"%char => Some 6%Z | "7"%char => Some 7%Z | "8"%char => Some 8%Z
  | "9"%char => Some 9%Z | _ => None
  end.

(** Reads a percentage cell, digits then a point, one digit and the percent
    sign, as a number of tenths of a percent; [acc] is the value of the
    digits already read. *)
Fixpoint lees_tienden (s : string) (acc : Z) : option Z :=
  match s with
  | EmptyString => None
  | String c r =>
      match cijfer c with
      | Some v => lees_tienden r (10 * acc + v)
      | None =>
          match c, r with
          | "."%char, String d (String "%" EmptyString) =>
              option_map (fun v => (10 * acc + v)%Z) (cijfer d)
          | _, _ => None
          end
      end
  end.

Definition lees_cel (cel : string) : option Z := lees_tienden cel 0.


(** ** Dictionaries *)

Definition dict (V : Type) : Type := list (string * V).

Section Dict.
Context {V : Type}.

Fixpoint dict_get (d : dict V) (k : string) : option V :=
  match d with
  | [] => None
  | (k', v) :: r => if String.eqb k' k then Some v else dict_get r k
  end.

(** [d[k] = v]: the binding of an existing key is replaced where it
    stands, a new key goes to the end. *)
Fixpoint dict_set (d : dict V) (k : string) (v : V) : dict V :=
  match d with
  | [] => [(k, v)]
  | (k', v') :: r =>
      if String.eqb k' k then (k', v) :: r else (k', v') :: dict_set r k v
  end.

Fixpoint dict_del (d : dict V) (k : string) : dict V :=
  match d with
  | [] => []
  | (k', v') :: r => if String.eqb k' k then r else (k', v') :: dict_del r k
  end.

Definition keys (d : dict V) : list string := map fst d.
Definition values (d : dict V) : list V := map snd d.
Definition items (d : dict V) : list (string * V) := d.

(** [not d] is true exactly for the empty dict. *)
Definition dict_empty (d : dict V) : bool :=
  match d with [] => true | _ => false end.
End Dict.

(** [l.append(x)] *)
Definition append {A} (l : list A) (x : A) : list A := (l ++ [x])%list.

(** [sum(xs)]: Python starts from 0 and adds from the left. *)
Definition sum (xs : list Qc) : Qc := fold_left Qcplus xs 0.

(** ** The world: module globals, session state, and the page *)

Inductive exn : Type :=
| KeyError (k : string)
| ZeroDivisionError.

Inductive result (A : Type) : Type :=
| Ok (a : A)
| Raise (e : exn).
Arguments Ok {A} a.
Arguments Raise {A} e.

(** The figure built by [maak_staafdiagram]: one [go.Bar] trace and the
    layout settings the function writes. *)
Record figure : Type := mk_figure {
  bar_x : list string;
  bar_y : list Qc;
  marker_color : list string;
  bar_text : list string;
  textposition : string;
  title : string;
  xaxis_title : string;
  yaxis_title : string;
  height : Z;
  showlegend : bool;
  plot_bgcolor : string;
  paper_bgcolor : string;
  yaxes_gridcolor : string
}.

(** The PDF, as the cell data of its three tables in story order.  The
    title block with its time stamp and the table styles are layout and are
    left out. *)
Record rapport : Type := mk_rapport {
  verbruik_tabel_data : list (list string);
  emissie_tabel_data : list (list string);
  factoren_tabel_data : list (list string)
}.

(** What one run of the script puts on the page.  Static headings and
    markdown are left out. *)
Inductive widget : Type :=
| Warning (body : string)
| Metric (label value : string)
| Dataframe (columns : list (string * list string))
| PlotlyChart (fig : figure)
| DownloadButton (label : string) (data : rapport)
| Success (body : string).

(** [st.session_state]: a key is present when its field is [Some]. *)
Record session_state : Type := mk_session {
  ss_emissies : option (dict Qc);
  ss_totaal : option Qc;
  ss_verbruik : option (dict Qc);
  ss_stroom_type : option string
}.

Record world : Type := mk_world {
  g_factoren : dict Qc;        (* the object bound to EMISSIEFACTOREN *)
  session : session_state;
  page : list widget
}.

(** ** The monad *)

Definition M (A : Type) : Type := world -> result A * world.

Definition ret {A} (a : A) : M A := fun w => (Ok a, w).

Definition raise {A} (e : exn) : M A := fun w => (Raise e, w).

Definition bind {A B} (m : M A) (k : A -> M B) : M B :=
  fun w =>
    match m w with
    | (Ok a, w') => k a w'
    | (Raise e, w') => (Raise e, w')
    end.

Notation "x <- m ;; k" := (bind m (fun x => k))
  (at level 61, m at next level, right associativity).
Notation "m ;;; k" := (bind m (fun _ => k))
  (at level 61, right associativity).

Fixpoint mapM {A B} (f : A -> M B) (l : list A) : M (list B) :=
  match l with
  | [] => ret []
  | a :: r => b <- f a ;; bs <- mapM f r ;; ret (b :: bs)
  end.

Fixpoint foldM {A B} (f : B -> A -> M B) (l : list A) (acc : B) : M B :=
  match l with
  | [] => ret acc
  | a :: r => acc' <- f acc a ;; foldM f r acc'
  end.

(** [EMISSIEFACTOREN[k]] *)
Definition factor (k : string) : M Qc :=
  fun w =>
    match dict_get (g_factoren w) k with
    | Some v => (Ok v, w)
    | None => (Raise (KeyError k), w)
    end.

(** [EMISSIEFACTOREN.items()] *)
Definition factor_items : M (list (string * Qc)) :=
  fun w => (Ok (items (g_factoren w)), w).

(** [d[k]] on a local dict *)
Definition subscript {V} (d : dict V) (k : string) : M V :=
  match dict_get d k with
  | Some v => ret v
  | None => raise (KeyError k)
  end.

(** [x / y] *)
Definition py_div (x y : Qc) : M Qc :=
  if Qc_eqb y 0 then raise ZeroDivisionError else ret (x / y).

(** [st.session_state[k]] for the four keys the program uses *)
Definition st_get {A} (k : string) (field : session_state -> option A) : M A :=
  fun w =>
    match field (session w) with
    | Some v => (Ok v, w)
    | None => (Raise (KeyError k), w)
    end.

Definition st_update (f : session_state -> session_state) : M unit :=
  fun w => (Ok tt, mk_world (g_factoren w) (f (session w)) (page w)).

(** ['emissies' in st.session_state] *)
Definition st_has_emissies : M bool :=
  fun w =>
    (Ok (match ss_emissies (session w) with Some _ => true | None => false end), w).

Definition draw (x : widget) : M unit :=
  fun w => (Ok tt, mk_world (g_factoren w) (session w) (append (page w) x)).

(** ** The program *)

(** The dict literal that the module binds to [EMISSIEFACTOREN] when it is
    loaded. *)
Definition EMISSIEFACTOREN : dict Qc :=
  [ ("Aardgas (m³)", dec 2.085);
    ("Elektriciteit - Grijze stroom (kWh)", dec 0.536);
    ("Elektriciteit - Groene stroom (kWh)", dec 0.000);
    ("Diesel (liter)", dec 3.256);
    ("Benzine (liter)", dec 2.821) ].

Definition bereken_emissies
    (gas_m3 elektra_kwh : Qc) (stroom_type : string) (diesel_liter : Qc)
    : M (dict Qc) :=
  let emissies := [] in
  emissies <-
    (if Qc_gtb gas_m3 0 then
       f <- factor "Aardgas (m³)" ;;
       ret (dict_set emissies "Aardgas" (gas_m3 * f))
     else ret emissies) ;;
  emissies <-
    (if Qc_gtb elektra_kwh 0 then
       let factor_key := "Elektriciteit - " ++ stroom_type ++ " (kWh)" in
       f <- factor factor_key ;;
       ret (dict_set emissies "Elektriciteit" (elektra_kwh * f))
     else ret emissies) ;;
  emissies <-
    (if Qc_gtb diesel_liter 0 then
       f <- factor "Diesel (liter)" ;;
       ret (dict_set emissies "Diesel" (diesel_liter * f))
     else ret emissies) ;;
  ret emissies.

(** Line 39 of the source reads [if not emissies_data] without its colon;
    the function is modelled with the colon in place. *)
Definition maak_staafdiagram (emissies_data : dict Qc) : option figure :=
  if dict_empty emissies_data then None
  else
    let categorieen := keys emissies_data in
    let waarden := values emissies_data in
    Some {|
      bar_x := categorieen;
      bar_y := waarden;
      marker_color := ["#21808D"; "#A87B2F"; "#C0152F"];
      bar_text := map (fun w => format_f 1 w ++ " kg") waarden;
      textposition := "outside";
      title := "CO₂-emissies per categorie";
      xaxis_title := "Energiedrager";
      yaxis_title := "CO₂-emissies (kg CO₂-eq)";
      height := 400;
      showlegend := false;
      plot_bgcolor := "rgba(0,0,0,0)";
      paper_bgcolor := "rgba(0,0,0,0)";
      yaxes_gridcolor := "lightgray"
    |}.

Definition genereer_pdf
    (emissies_data verbruik_data : dict Qc) (totaal_emissie : Qc)
    (stroom_type : string) : M rapport :=
  gas <- subscript verbruik_data "gas" ;;
  elektra <- subscript verbruik_data "elektra" ;;
  diesel <- subscript verbruik_data "diesel" ;;
  let verbruik_tabel_data :=
    [ ["Energiedrager"; "Verbruik"; "Eenheid"];
      ["Aardgas"; format_f 2 gas; "m³"];
      ["Elektriciteit"; format_f 2 elektra; "kWh"];
      ["Stroomtype"; stroom_type; ""];
      ["Diesel"; format_f 2 diesel; "liter"] ] in
  let emissie_tabel_data := [["Categorie"; "CO₂-emissies (kg CO₂-eq)"; "Percentage"]] in
  emissie_tabel_data <-
    foldM (fun tabel '(categorie, emissie) =>
             percentage <-
               (if Qc_gtb totaal_emissie 0 then
                  q <- py_div emissie totaal_emissie ;; ret (q * dec 100)
                else ret 0) ;;
             ret (append tabel [categorie; format_f 2 emissie;
                                format_f 1 percentage ++ "%"]))
          (items emissies_data) emissie_tabel_data ;;
  let emissie_tabel_data :=
    append emissie_tabel_data ["TOTAAL"; format_f 2 totaal_emissie; "100%"] in
  let factoren_tabel_data := [["Energiedrager"; "Emissiefactor"; "Eenheid"]] in
  factoren <- factor_items ;;
  factoren_tabel_data <-
    foldM (fun tabel '(naam, factor) =>
             ret (append tabel [naam; format_f 3 factor; "kg CO₂-eq"]))
          factoren factoren_tabel_data ;;
  ret (mk_rapport verbruik_tabel_data emissie_tabel_data factoren_tabel_data).

(** The values the input widgets return in one run of the script: the three
    [number_input]s (which have [min_value=0.0]), the [selectbox], and
    whether the button was clicked. *)
Record invoer : Type := mk_invoer {
  gas_verbruik : Qc;
  elektra_verbruik : Qc;
  stroom_type : string;
  diesel_verbruik : Qc;
  knop : bool
}.

(** Lines 271-287 of [main]: the button and what a click does. *)
Definition bereken_knop (i : invoer) : M unit :=
  if knop i then
    if Qc_eqb (gas_verbruik i) 0 && Qc_eqb (elektra_verbruik i) 0
       && Qc_eqb (diesel_verbruik i) 0
    then draw (Warning "⚠️ Voer minimaal één verbruikswaarde in om te berekenen.")
    else
      emissies <- bereken_emissies (gas_verbruik i) (elektra_verbruik i)
                                   (stroom_type i) (diesel_verbruik i) ;;
      let totaal := sum (values emissies) in
      st_update (fun _ =>
        {| ss_emissies := Some emissies;
           ss_totaal := Some totaal;
           ss_verbruik := Some [ ("gas", gas_verbruik i);
                                 ("elektra", elektra_verbruik i);
                                 ("diesel", diesel_verbruik i) ];
           ss_stroom_type := Some (stroom_type i) |})
  else ret tt.

(** The [Percentage] column of the results table (lines 307-308); the
    total is read from the session state for every element. *)
Definition percentage_kolom (waarden : list Qc) : M (list string) :=
  mapM (fun v =>
          totaal <- st_get "totaal" ss_totaal ;;
          q <- py_div v totaal ;;
          ret (format_f 1 (q * dec 100) ++ "%"))
       waarden.

(** Lines 290-339 of [main]: the results section.  A figure that was built
    counts as true in [if fig]. *)
Definition toon_resultaten : M unit :=
  has <- st_has_emissies ;;
  if has then
    totaal <- st_get "totaal" ss_totaal ;;
    draw (Metric "Totale CO₂-emissies" (format_f 2 totaal ++ " kg CO₂-eq")) ;;;
    emissies <- st_get "emissies" ss_emissies ;;
    let categorie := keys emissies in
    emissies <- st_get "emissies" ss_emissies ;;
    let co2 := map (format_f 2) (values emissies) in
    emissies <- st_get "emissies" ss_emissies ;;
    percentage <- percentage_kolom (values emissies) ;;
    draw (Dataframe [ ("Categorie", categorie);
                      ("CO₂-emissies (kg)", co2);
                      ("Percentage", percentage) ]) ;;;
    emissies <- st_get "emissies" ss_emissies ;;
    (match maak_staafdiagram emissies with
     | Some fig => draw (PlotlyChart fig)
     | None => ret tt
     end) ;;;
    emissies <- st_get "emissies" ss_emissies ;;
    verbruik <- st_get "verbruik" ss_verbruik ;;
    totaal <- st_get "totaal" ss_totaal ;;
    stroom <- st_get "stroom_type" ss_stroom_type ;;
    pdf_buffer <- genereer_pdf emissies verbruik totaal stroom ;;
    draw (DownloadButton "📥 Download Rapport (PDF)" pdf_buffer) ;;;
    draw (Success "✅ Rapport is klaar om te downloaden!")
  else ret tt.

Definition main (i : invoer) : M unit :=
  bereken_knop i ;;; toon_resultaten.

(** The world when the module has just been loaded and a session starts. *)
Definition startup : world :=
  {| g_factoren := EMISSIEFACTOREN;
     session := mk_session None None None None;
     page := [] |}.

(** Streamlit reruns the script on every interaction: the page starts
    empty, the globals and the session state are kept. *)
Definition rerun (i : invoer) (w : world) : result unit * world :=
  main i (mk_world (g_factoren w) (session w) []).

(** ** The calculator over binary64

    The same function with Python's own number type: [float] is IEEE
    binary64, a missing key is [None]. *)

Definition EMISSIEFACTOREN_b64 : dict float :=
  [ ("Aardgas (m³)", 2.085%float);
    ("Elektriciteit - Grijze stroom (kWh)", 0.536%float);
    ("Elektriciteit - Groene stroom (kWh)", 0.000%float);
    ("Diesel (liter)", 3.256%float);
    ("Benzine (liter)", 2.821%float) ].

Definition bereken_emissies_b64
    (gas_m3 elektra_kwh : float) (stroom_type : string) (diesel_liter : float)
    : option (dict float) :=
  let emissies := [] in
  match
    (if PrimFloat.ltb 0 gas_m3 then
       option_map (fun f => dict_set emissies "Aardgas" (PrimFloat.mul gas_m3 f))
                  (dict_get EMISSIEFACTOREN_b64 "Aardgas (m³)")
     else Some emissies)
  with
  | None => None
  | Some emissies =>
      match
        (if PrimFloat.ltb 0 elektra_kwh then
           let factor_key := "Elektriciteit - " ++ stroom_type ++ " (kWh)" in
           option_map
             (fun f => dict_set emissies "Elektriciteit" (PrimFloat.mul elektra_kwh f))
             (dict_get EMISSIEFACTOREN_b64 factor_key)
         else Some emissies)
      with
      | None => None
      | Some emissies =>
          if PrimFloat.ltb 0 diesel_liter then
            option_map
              (fun f => dict_set emissies "Diesel" (PrimFloat.mul diesel_liter f))
              (dict_get EMISSIEFACTOREN_b64 "Diesel (liter)")
          else Some emissies
      end
  end.

Definition sum_b64 (xs : list float) : float := fold_left PrimFloat.add xs 0%float.

(** ** The claims' vocabulary *)

(** The two options of the tariff [selectbox]. *)
Inductive tarief : Type := Grijs | Groen.

Definition tarief_label (t : tarief) : string :=
  match t with Grijs => "Grijze stroom" | Groen => "Groene stroom" end.

(** The electricity factor the specification assigns to each tariff. *)
Definition tarief_factor (t : tarief) : Qc :=
  match t with Grijs => dec 0.536 | Groen => dec 0.000 end.

(** The Emissions Result as the specification describes it: the categories
    with a strictly positive quantity, in the order gas, electricity,
    diesel, each with quantity times factor. *)
Definition emissies_spec (gas elektra : Qc) (t : tarief) (diesel : Qc) : dict Qc :=
  ((if Qc_gtb gas 0 then [("Aardgas", gas * dec 2.085)] else [])
   ++ (if Qc_gtb elektra 0 then [("Elektriciteit", elektra * tarief_factor t)] else [])
   ++ (if Qc_gtb diesel 0 then [("Diesel", diesel * dec 3.256)] else []))%list.

(** The report's tables as the specification describes them. *)
Definition percentage_spec (totaal emissie : Qc) : Qc :=
  if Qc_gtb totaal 0 then emissie / totaal * dec 100 else 0.

Definition emissie_rij (totaal : Qc) (entry : string * Qc) : list string :=
  [fst entry; format_f 2 (snd entry);
   format_f 1 (percentage_spec totaal (snd entry)) ++ "%"].

Definition emissie_tabel_spec (emissies : dict Qc) (totaal : Qc)
    : list (list string) :=
  (["Categorie"; "CO₂-emissies (kg CO₂-eq)"; "Percentage"]
     :: map (emissie_rij totaal) emissies
     ++ [["TOTAAL"; format_f 2 totaal; "100%"]])%list.

Definition factoren_rij (entry : string * Qc) : list string :=
  [fst entry; format_f 3 (snd entry); "kg CO₂-eq"].

Definition factoren_tabel_spec (tabel : dict Qc) : list (list string) :=
  ["Energiedrager"; "Emissiefactor"; "Eenheid"] :: map factoren_rij tabel.

Definition verbruik_tabel_spec (gas elektra diesel : Qc) (stroom : string)
    : list (list string) :=
  [ ["Energiedrager"; "Verbruik"; "Eenheid"];
    ["Aardgas"; format_f 2 gas; "m³"];
    ["Elektriciteit"; format_f 2 elektra; "kWh"];
    ["Stroomtype"; stroom; ""];
    ["Diesel"; format_f 2 diesel; "liter"] ].

(** The [verbruik] dict literal that [main] stores. *)
Definition verbruik_dict (gas elektra diesel : Qc) : dict Qc :=
  [("gas", gas); ("elektra", elektra); ("diesel", diesel)].

(** The test of line 272. *)
Definition all_zero (i : invoer) : bool :=
  Qc_eqb (gas_verbruik i) 0 && Qc_eqb (elektra_verbruik i) 0
  && Qc_eqb (diesel_verbruik i) 0.

Definition is_warning (x : widget) : bool :=
  match x with Warning _ => true | _ => false end.

Definition is_download (x : widget) : bool :=
  match x with DownloadButton _ _ => true | _ => false end.


(** The specification's worked example: 100 m³ of gas and 300 kWh of grey
    electricity, no diesel, and a click on the button. *)
Definition voorbeeld : invoer :=
  mk_invoer (dec 100) (dec 300) "Grijze stroom" 0 true.

(** The specification's sentence on the all-zero case, read on one run of
    the script from the world [w]: the quantities are all zero exactly when
    the run shows the warning, leaves the session state alone (no
    calculation, nothing stored) and offers no report. *)
Definition spec_all_zero_case (i : invoer) (w : world) : Prop :=
  all_zero i = true <->
  (existsb is_warning (page (snd (rerun i w))) = true /\
   session (snd (rerun i w)) = session w /\
   existsb is_download (page (snd (rerun i w))) = false).





(** The world [w] with another object bound to [EMISSIEFACTOREN]. *)
Definition with_factoren (tabel : dict Qc) (w : world) : world :=
  mk_world tabel (session w) (page w).

(** The worlds the program can be in: the session starts at [startup] and
    every interaction reruns the script with whatever the widgets hold. *)
Inductive reachable : world -> Prop :=
| reach_startup : reachable startup
| reach_rerun i w : reachable w -> reachable (snd (rerun i w)).

(** A world in which the module global still holds its initial table. *)
Definition loaded (ss : session_state) (pg : list widget) : world :=
  mk_world EMISSIEFACTOREN ss pg.

(** ** Proof vocabulary *)

(** [preserves proj m]: running [m] does not change the part [proj] of the
    world, whether [m] returns or raises. *)
Definition preserves {A X} (proj : world -> X) (m : M A) : Prop :=
  forall w, proj (snd (m w)) = proj w.

(** [adds P m]: running [m] only appends widgets that satisfy [P]. *)
Definition adds (P : widget -> bool) {A} (m : M A) : Prop :=
  forall w, exists l, page (snd (m w)) = (page w ++ l)%list /\ forallb P l = true.


(** ** Further vocabulary *)

(** A quantity as the calculator sees it: what is not strictly positive
    counts as nothing. *)
Definition clamp (x : Qc) : Qc := if Qc_gtb x 0 then x else 0.

(** What the input widgets can return: the three [number_input]s have
    [min_value=0.0] and the [selectbox] offers the two tariffs. *)
Definition geldig (i : invoer) : Prop :=
  0 <= gas_verbruik i /\ 0 <= elektra_verbruik i /\ 0 <= diesel_verbruik i /\
  exists t, stroom_type i = tarief_label t.

(** The worlds a user can bring about: as [reachable], with inputs the
    widgets can return. *)
Inductive bereikbaar : world -> Prop :=
| bereik_startup : bereikbaar startup
| bereik_rerun i w : geldig i -> bereikbaar w -> bereikbaar (snd (rerun i w)).

(** The session state before any calculation. *)
Definition leeg : session_state := mk_session None None None None.

(** The session state a calculation writes (lines 280-287). *)
Definition opgeslagen (gas elektra : Qc) (stroom : string) (diesel : Qc)
    (em : dict Qc) : session_state :=
  {| ss_emissies := Some em;
     ss_totaal := Some (sum (values em));
     ss_verbruik := Some (verbruik_dict gas elektra diesel);
     ss_stroom_type := Some stroom |}.

(** The percentage column as the results table computes it. *)
Definition percentage_ui (tot : Qc) (waarden : list Qc) : list string :=
  map (fun v => format_f 1 (v / tot * dec 100) ++ "%") waarden.

(** The widgets of a results section that runs to its end. *)
Definition resultaten_pagina (tabel em : dict Qc) (tot gas elektra diesel : Qc)
    (stroom : string) : list widget :=
  ([ Metric "Totale CO₂-emissies" (format_f 2 tot ++ " kg CO₂-eq");
     Dataframe [ ("Categorie", keys em);
                 ("CO₂-emissies (kg)", map (format_f 2) (values em));
                 ("Percentage", percentage_ui tot (values em)) ] ]
   ++ (match maak_staafdiagram em with
       | Some fig => [PlotlyChart fig]
       | None => []
       end)
   ++ [ DownloadButton "📥 Download Rapport (PDF)"
          {| verbruik_tabel_data := verbruik_tabel_spec gas elektra diesel stroom;
             emissie_tabel_data := emissie_tabel_spec em tot;
             factoren_tabel_data := factoren_tabel_spec tabel |};
        Success "✅ Rapport is klaar om te downloaden!" ])%list.

(** Column [k] of the data rows of the report's emissions table. *)
Definition emissie_kolom (k : nat) (rp : rapport) : list string :=
  map (fun rij => nth k rij "") (removelast (tl (emissie_tabel_data rp))).

(** The text of the warning (line 273). *)
Definition waarschuwing : widget :=
  Warning "⚠️ Voer minimaal één verbruikswaarde in om te berekenen.".

(** A session state is in order when it is empty or holds what one
    calculation on non-negative quantities with one of the two tariffs
    wrote, the result being non-empty. *)
Definition sessie_ok (ss : session_state) : Prop :=
  ss = leeg \/
  exists g e t d,
    0 <= g /\ 0 <= e /\ 0 <= d /\ emissies_spec g e t d <> [] /\
    ss = opgeslagen g e (tarief_label t) d (emissies_spec g e t d).

(** The page of a world in order: possibly the warning, then nothing, or
    the metric alone when the stored total is 0, or the whole results
    section of the stored calculation when the total is positive. *)
Definition pagina_ok (w : world) : Prop :=
  exists pre,
    (pre = [] \/ pre = [waarschuwing]) /\
    (page w = pre \/
     exists g e t d,
       0 <= g /\ 0 <= e /\ 0 <= d /\
       session w = opgeslagen g e (tarief_label t) d (emissies_spec g e t d) /\
       let em := emissies_spec g e t d in
       let tot := sum (values em) in
       (tot = 0 /\
        page w = (pre ++ [Metric "Totale CO₂-emissies"
                            (format_f 2 tot ++ " kg CO₂-eq")])%list) \/
       (0 < tot /\
        page w = (pre ++ resultaten_pagina EMISSIEFACTOREN em tot g e d
                           (tarief_label t))%list)).

(** The report and the results table of the worked example. *)
Definition voorbeeld_rapport : rapport :=
  {| verbruik_tabel_data :=
       [ ["Energiedrager"; "Verbruik"; "Eenheid"];
         ["Aardgas"; "100.00"; "m³"];
         ["Elektriciteit"; "300.00"; "kWh"];
         ["Stroomtype"; "Grijze stroom"; ""];
         ["Diesel"; "0.00"; "liter"] ];
     emissie_tabel_data :=
       [ ["Categorie"; "CO₂-emissies (kg CO₂-eq)"; "Percentage"];
         ["Aardgas"; "208.50"; "56.5%"];
         ["Elektriciteit"; "160.80"; "43.5%"];
         ["TOTAAL"; "369.30"; "100%"] ];
     factoren_tabel_data :=
       [ ["Energiedrager"; "Emissiefactor"; "Eenheid"];
         ["Aardgas (m³)"; "2.085"; "kg CO₂-eq"];
         ["Elektriciteit - Grijze stroom (kWh)"; "0.536"; "kg CO₂-eq"];
         ["Elektriciteit - Groene stroom (kWh)"; "0.000"; "kg CO₂-eq"];
         ["Diesel (liter)"; "3.256"; "kg CO₂-eq"];
         ["Benzine (liter)"; "2.821"; "kg CO₂-eq"] ] |}.

Definition voorbeeld_tabel : list (string * list string) :=
  [ ("Categorie", ["Aardgas"; "Elektriciteit"]);
    ("CO₂-emissies (kg)", ["208.50"; "160.80"]);
    ("Percentage", ["56.5%"; "43.5%"]) ].

(** A table is rectangular with three columns, as the [colWidths] of the
    three [Table]s are. *)
Definition drie_kolommen (tabel : list (list string)) : Prop :=
  Forall (fun rij => length rij = 3%nat) tabel.
(** The markdown text of the sidebar (lines 216-226), line by line; the
    string is the lines joined by newlines. *)
Definition sidebar_regels : list string :=
  [ "";
    "        Deze calculator gebruikt de officiële Nederlandse CO₂-emissiefactoren ";
    "        uit 2024 zoals gepubliceerd op **CO2emissiefactoren.nl**.";
    "        ";
    "        **Emissiefactoren:**";
    "        - Aardgas: 2,085 kg CO₂-eq/m³";
    "        - Grijze stroom: 0,536 kg CO₂-eq/kWh";
    "        - Groene stroom: 0,000 kg CO₂-eq/kWh";
    "        - Diesel: 3,256 kg CO₂-eq/liter";
    "        - Benzine: 2,821 kg CO₂-eq/liter";
    "        " ].

(** A printed number with the decimal comma of the sidebar. *)
Fixpoint komma (s : string) : string :=
  match s with
  | EmptyString => EmptyString
  | String c r => String (if Ascii.eqb c "." then ","%char else c) (komma r)
  end.

(** The bullet the sidebar should carry for a carrier, its factor and unit. *)
Definition sidebar_regel (drager : string) (factor : Qc) (eenheid : string) : string :=
  "        - " ++ drager ++ ": " ++ komma (format_f 3 factor)
    ++ " kg CO₂-eq/" ++ eenheid.

(** The carriers of the factor table: the name the sidebar uses, the key of
    the table, and the unit. *)
Definition dragers : list (string * string * string) :=
  [ ("Aardgas", "Aardgas (m³)", "m³");
    ("Grijze stroom", "Elektriciteit - Grijze stroom (kWh)", "kWh");
    ("Groene stroom", "Elektriciteit - Groene stroom (kWh)", "kWh");
    ("Diesel", "Diesel (liter)", "liter");
    ("Benzine", "Benzine (liter)", "liter") ].

Ltac qc_eq := apply Qc_is_canon; vm_compute; reflexivity.
Ltac qc_le := vm_compute; discriminate.

(** * Lemmas *)

(** ** Numbers and formatting *)

Example format_f_examples :
  format_f 2 (dec 208.5) = "208.50" /\ format_f 1 (dec 0.25) = "0.2" /\
  format_f 3 0 = "0.000" /\ format_f 1 (dec (-0.01)) = "-0.0" /\
  format_f 2 (dec 0.125) = "0.12" /\ format_f 1 (dec 99.95) = "100.0" /\
  format_f 2 (dec 0.005) = "0.00" /\ format_f 2 (dec 0.015) = "0.02" /\
  format_f 0 (dec 2.5) = "2" /\ format_f 1 (dec 1234.56) = "1234.6".
Proof. vm_compute. repeat split. Qed.

Example lees_cel_examples :
  lees_cel "56.5%" = Some 565%Z /\ lees_cel "100.0%" = Some 1000%Z /\
  lees_cel "0.0%" = Some 0%Z /\ lees_cel "56.5" = None /\
  lees_cel "5.65%" = None /\ lees_cel "100%" = None.
Proof. vm_compute. repeat split. Qed.

Lemma Qc_gtb_true (x y : Qc) : Qc_gtb x y = true <-> y < x.
Proof.
  unfold Qc_gtb. change (y < x) with ((fun a b : Qc => (b < a)%Q) x y).
  rewrite Qcgt_alt. destruct (x ?= y); split; congruence.
Qed.

Lemma Qc_gtb_false (x y : Qc) : Qc_gtb x y = false <-> x <= y.
Proof.
  rewrite Qcle_alt. unfold Qc_gtb.
  destruct (x ?= y); split; congruence.
Qed.

Lemma Qc_eqb_true (x y : Qc) : Qc_eqb x y = true <-> x = y.
Proof.
  unfold Qc_eqb. rewrite Qceq_alt. destruct (x ?= y); split; congruence.
Qed.

Lemma Qc_eqb_refl (x : Qc) : Qc_eqb x x = true.
Proof. now apply Qc_eqb_true. Qed.

Lemma Qc_gtb_irrefl (x : Qc) : Qc_gtb x x = false.
Proof. apply Qc_gtb_false, Qcle_refl. Qed.

(** On non-negative numbers, [x > 0] fails exactly at zero. *)
Lemma Qc_gtb_0_nonneg (x : Qc) : 0 <= x -> Qc_gtb x 0 = negb (Qc_eqb x 0).
Proof.
  intros Hx. destruct (Qc_eqb x 0) eqn:E.
  - apply Qc_eqb_true in E. subst. apply Qc_gtb_irrefl.
  - simpl. apply Qc_gtb_true. apply Qcle_lt_or_eq in Hx. destruct Hx as [H | H]; [exact H |].
    symmetry in H. apply Qc_eqb_true in H. congruence.
Qed.

Lemma Qc_gtb_eqb_false (x : Qc) : Qc_gtb x 0 = true -> Qc_eqb x 0 = false.
Proof.
  intros H. destruct (Qc_eqb x 0) eqn:E; [| reflexivity].
  apply Qc_eqb_true in E. subst. now rewrite Qc_gtb_irrefl in H.
Qed.

Lemma dec_zero : dec 0.000 = 0.
Proof. qc_eq. Qed.




Lemma this_plus (x y : Qc) : (this (x + y) == this x + this y)%Q.
Proof. apply Qred_correct. Qed.

Lemma this_mult (x y : Qc) : (this (x * y) == this x * this y)%Q.
Proof. apply Qred_correct. Qed.


Lemma sum_cons (v : Qc) (r : list Qc) : sum (v :: r) = v + sum r.
Proof.
  unfold sum. cbn [fold_left].
  assert (H : forall l a b, fold_left Qcplus l (a + b) = a + fold_left Qcplus l b).
  { induction l as [| x l IH]; intros a b; cbn [fold_left]; [reflexivity |].
    now rewrite <- Qcplus_assoc, IH. }
  rewrite (Qcplus_comm 0 v). rewrite <- (Qcplus_0_r v) at 1.
  rewrite <- Qcplus_assoc. rewrite (Qcplus_0_l 0). apply H.
Qed.
















(** ** Dictionaries *)

Lemma dict_get_set_other {V} (d : dict V) k k' v :
  k <> k' -> dict_get (dict_set d k v) k' = dict_get d k'.
Proof.
  intros Hk. induction d as [| [k0 v0] r IH]; simpl.
  - destruct (String.eqb_spec k k'); [contradiction | reflexivity].
  - destruct (String.eqb_spec k0 k) as [-> | Hne]; simpl.
    + destruct (String.eqb_spec k k'); [contradiction | reflexivity].
    + destruct (String.eqb_spec k0 k'); [reflexivity | exact IH].
Qed.

Lemma dict_get_del_other {V} (d : dict V) k k' :
  k <> k' -> dict_get (dict_del d k) k' = dict_get d k'.
Proof.
  intros Hk. induction d as [| [k0 v0] r IH]; simpl.
  - reflexivity.
  - destruct (String.eqb_spec k0 k) as [-> | Hne]; simpl.
    + destruct (String.eqb_spec k k'); [contradiction | reflexivity].
    + destruct (String.eqb_spec k0 k'); [reflexivity | exact IH].
Qed.



(** ** What the operations leave alone *)

Section Preserves.
Context {X : Type} (proj : world -> X).

Lemma preserves_ret {A} (a : A) : preserves proj (ret a).
Proof. now intros w. Qed.

Lemma preserves_raise {A} (e : exn) : preserves proj (@raise A e).
Proof. now intros w. Qed.

Lemma preserves_bind {A B} (m : M A) (k : A -> M B) :
  preserves proj m -> (forall a, preserves proj (k a)) ->
  preserves proj (bind m k).
Proof.
  intros Hm Hk w. unfold bind. specialize (Hm w).
  destruct (m w) as [[a | e] w']; simpl in *.
  - now rewrite Hk.
  - exact Hm.
Qed.

Lemma preserves_mapM {A B} (f : A -> M B) (l : list A) :
  (forall a, preserves proj (f a)) -> preserves proj (mapM f l).
Proof.
  intros Hf. induction l as [| a r IH]; simpl.
  - apply preserves_ret.
  - apply preserves_bind; [apply Hf | intros b].
    apply preserves_bind; [exact IH | intros bs]. apply preserves_ret.
Qed.

Lemma preserves_foldM {A B} (f : B -> A -> M B) (l : list A) (acc : B) :
  (forall b a, preserves proj (f b a)) -> preserves proj (foldM f l acc).
Proof.
  intros Hf. revert acc. induction l as [| a r IH]; intros acc; simpl.
  - apply preserves_ret.
  - apply preserves_bind; [apply Hf | intros b; apply IH].
Qed.

Lemma preserves_factor k : preserves proj (factor k).
Proof. intros w. unfold factor. now destruct (dict_get _ _). Qed.

Lemma preserves_factor_items : preserves proj factor_items.
Proof. now intros w. Qed.

Lemma preserves_subscript {V} (d : dict V) k : preserves proj (subscript d k).
Proof. intros w. unfold subscript. now destruct (dict_get _ _). Qed.

Lemma preserves_py_div x y : preserves proj (py_div x y).
Proof. intros w. unfold py_div. now destruct (Qc_eqb y 0). Qed.

Lemma preserves_st_get {A} k (field : session_state -> option A) :
  preserves proj (st_get k field).
Proof. intros w. unfold st_get. now destruct (field _). Qed.

Lemma preserves_st_has_emissies : preserves proj st_has_emissies.
Proof. now intros w. Qed.
End Preserves.

Lemma preserves_draw_globals x : preserves g_factoren (draw x).
Proof. now intros w. Qed.

Lemma preserves_draw_session x : preserves session (draw x).
Proof. now intros w. Qed.

Lemma preserves_st_update_globals f : preserves g_factoren (st_update f).
Proof. now intros w. Qed.

Create HintDb keep discriminated.
#[local] Hint Resolve preserves_ret preserves_raise preserves_factor
  preserves_factor_items preserves_subscript preserves_py_div
  preserves_st_get preserves_st_has_emissies preserves_draw_globals
  preserves_draw_session preserves_st_update_globals : keep.

Ltac keep_step :=
  first
    [ apply preserves_bind; [| intros ? ]
    | apply preserves_mapM; intros ?
    | apply preserves_foldM; intros ? [? ?]
    | solve [auto with keep]
    | match goal with
      | |- preserves _ (if ?c then _ else _) => destruct c
      | |- preserves _ (match ?c with Some _ => _ | None => _ end) => destruct c
      end ].

(** The calculator and the report generator read the world and nothing
    else: every part of it is as before. *)
Lemma bereken_emissies_preserves {X} (proj : world -> X) g e s d :
  preserves proj (bereken_emissies g e s d).
Proof. unfold bereken_emissies. repeat keep_step. Qed.

Lemma genereer_pdf_preserves {X} (proj : world -> X) em vb tot s :
  preserves proj (genereer_pdf em vb tot s).
Proof. unfold genereer_pdf. repeat keep_step. Qed.

Lemma bereken_knop_globals i : preserves g_factoren (bereken_knop i).
Proof.
  unfold bereken_knop. repeat keep_step.
Qed.

Lemma toon_resultaten_globals : preserves g_factoren toon_resultaten.
Proof.
  unfold toon_resultaten, percentage_kolom. repeat keep_step.
Qed.

Lemma toon_resultaten_session : preserves session toon_resultaten.
Proof.
  unfold toon_resultaten, percentage_kolom. repeat keep_step.
Qed.

Lemma main_globals i : preserves g_factoren (main i).
Proof.
  unfold main. apply preserves_bind; [apply bereken_knop_globals |].
  intros _. apply toon_resultaten_globals.
Qed.

(** ** The calculator *)

(** The calculator on a loaded world, for either tariff. *)
Lemma bereken_emissies_loaded g e t d ss pg :
  bereken_emissies g e (tarief_label t) d (loaded ss pg)
  = (Ok (emissies_spec g e t d), loaded ss pg).
Proof.
  unfold bereken_emissies, emissies_spec, bind, factor, ret, loaded.
  destruct t; destruct (Qc_gtb g 0), (Qc_gtb e 0), (Qc_gtb d 0); reflexivity.
Qed.

Lemma emissies_spec_keys g e t d c :
  In c (keys (emissies_spec g e t d)) ->
  c = "Aardgas" \/ c = "Elektriciteit" \/ c = "Diesel".
Proof.
  unfold emissies_spec.
  destruct (Qc_gtb g 0), (Qc_gtb e 0), (Qc_gtb d 0); simpl; intuition.
Qed.

Lemma emissies_spec_NoDup g e t d : NoDup (keys (emissies_spec g e t d)).
Proof.
  unfold emissies_spec.
  destruct (Qc_gtb g 0), (Qc_gtb e 0), (Qc_gtb d 0); simpl;
    repeat constructor; simpl; intuition discriminate.
Qed.

Lemma emissies_spec_get g e t d :
  dict_get (emissies_spec g e t d) "Aardgas"
    = (if Qc_gtb g 0 then Some (g * dec 2.085) else None) /\
  dict_get (emissies_spec g e t d) "Elektriciteit"
    = (if Qc_gtb e 0 then Some (e * tarief_factor t) else None) /\
  dict_get (emissies_spec g e t d) "Diesel"
    = (if Qc_gtb d 0 then Some (d * dec 3.256) else None).
Proof.
  unfold emissies_spec.
  destruct (Qc_gtb g 0), (Qc_gtb e 0), (Qc_gtb d 0); simpl; auto.
Qed.




Lemma bereken_emissies_world g e s d w : snd (bereken_emissies g e s d w) = w.
Proof. apply (bereken_emissies_preserves (fun w => w)). Qed.

Lemma bereken_emissies_zero s w : bereken_emissies 0 0 s 0 w = (Ok [], w).
Proof. unfold bereken_emissies. now rewrite Qc_gtb_irrefl. Qed.

Lemma emissies_spec_groen (elektra : Qc) :
  0 < elektra -> emissies_spec 0 elektra Groen 0 = [("Elektriciteit", 0)].
Proof.
  intros He. unfold emissies_spec. rewrite Qc_gtb_irrefl.
  apply Qc_gtb_true in He. rewrite He. cbn [app tarief_factor].
  rewrite dec_zero. repeat f_equal. ring.
Qed.

Lemma bereken_emissies_groen (elektra : Qc) ss pg :
  0 < elektra ->
  bereken_emissies 0 elektra "Groene stroom" 0 (loaded ss pg)
  = (Ok [("Elektriciteit", 0)], loaded ss pg).
Proof.
  intros He. rewrite (bereken_emissies_loaded _ _ Groen).
  now rewrite emissies_spec_groen.
Qed.

Lemma emissies_voorbeeld :
  emissies_spec (dec 100) (dec 300) Grijs 0
  = [("Aardgas", dec 208.5); ("Elektriciteit", dec 160.8)].
Proof.
  unfold emissies_spec.
  replace (Qc_gtb (dec 100) 0) with true by (vm_compute; reflexivity).
  replace (Qc_gtb (dec 300) 0) with true by (vm_compute; reflexivity).
  rewrite Qc_gtb_irrefl. cbn [app tarief_factor].
  repeat f_equal; qc_eq.
Qed.

Lemma som_voorbeeld :
  sum (values [("Aardgas", dec 208.5); ("Elektriciteit", dec 160.8)]) = dec 369.3.
Proof. qc_eq. Qed.

(** The calculator's result is a function of the three table entries it
    subscripts. *)
Lemma bereken_emissies_lookups g e s d w1 w2 :
  dict_get (g_factoren w1) "Aardgas (m³)" = dict_get (g_factoren w2) "Aardgas (m³)" ->
  dict_get (g_factoren w1) ("Elektriciteit - " ++ s ++ " (kWh)")
    = dict_get (g_factoren w2) ("Elektriciteit - " ++ s ++ " (kWh)") ->
  dict_get (g_factoren w1) "Diesel (liter)" = dict_get (g_factoren w2) "Diesel (liter)" ->
  fst (bereken_emissies g e s d w1) = fst (bereken_emissies g e s d w2).
Proof.
  intros Ha He Hd. unfold bereken_emissies, bind, factor, ret.
  destruct (Qc_gtb g 0), (Qc_gtb e 0), (Qc_gtb d 0);
    repeat first
      [ rewrite Ha | rewrite He | rewrite Hd
      | match goal with
        | |- context [dict_get (g_factoren w2) ?k] =>
            destruct (dict_get (g_factoren w2) k)
        end
      | progress cbv beta iota ];
    reflexivity.
Qed.

Lemma benzine_not_used s :
  "Benzine (liter)" <> "Aardgas (m³)" /\
  "Benzine (liter)" <> "Elektriciteit - " ++ s ++ " (kWh)" /\
  "Benzine (liter)" <> "Diesel (liter)".
Proof. repeat split; simpl; discriminate. Qed.

(** In binary64 the worked example gives the same three numbers, and
    green electricity gives exactly zero. *)
Lemma voorbeeld_b64 :
  bereken_emissies_b64 100 300 "Grijze stroom" 0
    = Some [("Aardgas", 208.5%float); ("Elektriciteit", 160.8%float)] /\
  sum_b64 [208.5%float; 160.8%float] = 369.3%float /\
  bereken_emissies_b64 0 50 "Groene stroom" 0 = Some [("Elektriciteit", 0%float)].
Proof. repeat split; vm_compute; reflexivity. Qed.

(** ** The report generator *)

Lemma foldM_rows {A B} (f : list B -> A -> M (list B)) (g : A -> B) :
  (forall tabel a w, f tabel a w = (Ok (append tabel (g a)), w)) ->
  forall l acc w, foldM f l acc w = (Ok (acc ++ map g l)%list, w).
Proof.
  intros Hf l. induction l as [| a r IH]; intros acc w; simpl.
  - now rewrite app_nil_r.
  - unfold bind. rewrite Hf, IH. unfold append.
    now rewrite <- app_assoc.
Qed.

Lemma genereer_pdf_get em vb g e d tot s w :
  dict_get vb "gas" = Some g ->
  dict_get vb "elektra" = Some e ->
  dict_get vb "diesel" = Some d ->
  genereer_pdf em vb tot s w
  = (Ok {| verbruik_tabel_data := verbruik_tabel_spec g e d s;
           emissie_tabel_data := emissie_tabel_spec em tot;
           factoren_tabel_data := factoren_tabel_spec (g_factoren w) |}, w).
Proof.
  intros Hg He Hd.
  unfold genereer_pdf, subscript. rewrite Hg, He, Hd.
  unfold bind at 1 2 3. unfold ret at 1 2 3.
  unfold bind at 1.
  rewrite (foldM_rows _ (emissie_rij tot)).
  - unfold bind, factor_items, items.
    rewrite (foldM_rows _ factoren_rij).
    + reflexivity.
    + intros tabel [naam f] w'. reflexivity.
  - intros tabel [c v] w'. unfold emissie_rij, percentage_spec, bind, py_div.
    cbn [fst snd].
    destruct (Qc_gtb tot 0) eqn:G.
    + rewrite (Qc_gtb_eqb_false _ G). reflexivity.
    + reflexivity.
Qed.

Lemma genereer_pdf_run em g e d tot s w :
  genereer_pdf em (verbruik_dict g e d) tot s w
  = (Ok {| verbruik_tabel_data := verbruik_tabel_spec g e d s;
           emissie_tabel_data := emissie_tabel_spec em tot;
           factoren_tabel_data := factoren_tabel_spec (g_factoren w) |}, w).
Proof. now apply genereer_pdf_get. Qed.




(** ** Running the script *)


Lemma bereken_knop_off i w : knop i = false -> bereken_knop i w = (Ok tt, w).
Proof. intros H. unfold bereken_knop. now rewrite H. Qed.

Lemma bereken_knop_zero i w :
  knop i = true -> all_zero i = true ->
  bereken_knop i w
  = (Ok tt,
     mk_world (g_factoren w) (session w)
       (append (page w)
          (Warning "⚠️ Voer minimaal één verbruikswaarde in om te berekenen."))).
Proof.
  intros Hk Hz. unfold bereken_knop. rewrite Hk.
  unfold all_zero in Hz. now rewrite Hz.
Qed.

Lemma bereken_knop_calc i w :
  knop i = true -> all_zero i = false ->
  bereken_knop i w
  = match fst (bereken_emissies (gas_verbruik i) (elektra_verbruik i)
                                (stroom_type i) (diesel_verbruik i) w) with
    | Ok em =>
        (Ok tt,
         mk_world (g_factoren w)
           {| ss_emissies := Some em;
              ss_totaal := Some (sum (values em));
              ss_verbruik := Some (verbruik_dict (gas_verbruik i)
                                     (elektra_verbruik i) (diesel_verbruik i));
              ss_stroom_type := Some (stroom_type i) |}
           (page w))
    | Raise e => (Raise e, w)
    end.
Proof.
  intros Hk Hz. unfold bereken_knop. rewrite Hk.
  unfold all_zero in Hz. rewrite Hz. unfold bind.
  pose proof (bereken_emissies_world (gas_verbruik i) (elektra_verbruik i)
                (stroom_type i) (diesel_verbruik i) w) as Hw.
  destruct (bereken_emissies _ _ _ _ w) as [[em | e] w']; simpl in *; now subst.
Qed.

Lemma toon_resultaten_none w :
  ss_emissies (session w) = None -> toon_resultaten w = (Ok tt, w).
Proof.
  intros H. unfold toon_resultaten, bind, st_has_emissies. now rewrite H.
Qed.






Lemma reachable_loaded w : reachable w -> g_factoren w = EMISSIEFACTOREN.
Proof.
  induction 1 as [| i w Hr IH]; [reflexivity |].
  unfold rerun. now rewrite main_globals.
Qed.

(** A click with a valid tariff and some non-zero quantity stores the
    calculator's result and its sum. *)
Lemma rerun_calc_session i t ss pg :
  knop i = true -> all_zero i = false -> stroom_type i = tarief_label t ->
  session (snd (rerun i (loaded ss pg)))
  = let em := emissies_spec (gas_verbruik i) (elektra_verbruik i) t
                            (diesel_verbruik i) in
    {| ss_emissies := Some em;
       ss_totaal := Some (sum (values em));
       ss_verbruik := Some (verbruik_dict (gas_verbruik i) (elektra_verbruik i)
                              (diesel_verbruik i));
       ss_stroom_type := Some (stroom_type i) |}.
Proof.
  intros Hk Hz Ht. unfold rerun, main, bind.
  rewrite bereken_knop_calc by assumption. cbn [g_factoren session page loaded].
  rewrite Ht at 1.
  change (mk_world EMISSIEFACTOREN ss []) with (loaded ss []).
  rewrite bereken_emissies_loaded. cbn [fst].
  now rewrite toon_resultaten_session.
Qed.

(** ** What a run puts on the page *)

Section Adds.
Variable P : widget -> bool.

Lemma adds_reads {A} (m : M A) : preserves page m -> adds P m.
Proof. intros H w. exists []. now rewrite app_nil_r, H. Qed.

Lemma adds_bind {A B} (m : M A) (k : A -> M B) :
  adds P m -> (forall a, adds P (k a)) -> adds P (bind m k).
Proof.
  intros Hm Hk w. unfold bind. destruct (Hm w) as (l1 & E1 & F1).
  destruct (m w) as [[a | e] w']; simpl in *.
  - destruct (Hk a w') as (l2 & E2 & F2). exists (l1 ++ l2)%list.
    now rewrite E2, E1, <- app_assoc, forallb_app, F1, F2.
  - now exists l1.
Qed.

Lemma adds_draw x : P x = true -> adds P (draw x).
Proof. intros H w. exists [x]. simpl. now rewrite H. Qed.
End Adds.

Lemma toon_resultaten_adds : adds (fun x => negb (is_warning x)) toon_resultaten.
Proof.
  unfold toon_resultaten.
  repeat first
    [ apply adds_bind; [| intros ? ]
    | apply adds_draw; reflexivity
    | match goal with
      | |- adds _ (if ?c then _ else _) => destruct c
      | |- adds _ (match ?c with Some _ => _ | None => _ end) => destruct c
      end
    | solve [ apply adds_reads;
              first [ apply genereer_pdf_preserves
                    | unfold percentage_kolom; repeat keep_step ] ] ].
Qed.

Lemma toon_resultaten_no_warning w :
  existsb is_warning (page (snd (toon_resultaten w)))
  = existsb is_warning (page w).
Proof.
  destruct (toon_resultaten_adds w) as (l & E & F). rewrite E, existsb_app.
  assert (H : existsb is_warning l = false).
  { clear E. induction l as [| x r IH]; [reflexivity |]. simpl in *.
    apply andb_true_iff in F. destruct F as [Fx Fr].
    destruct (is_warning x); [discriminate Fx | now apply IH]. }
  now rewrite H, orb_false_r.
Qed.

(** * The claims *)

(** C1.  For non-negative gas, electricity and diesel quantities and either
    tariff, the calculator returns a mapping in which a category is absent
    exactly when its quantity is zero, and a present category holds its
    quantity times its factor: 2.085 for gas, 0.536 (grey) or 0.000 (green)
    for electricity, 3.256 for diesel, which are the entries of the factor
    table for gas, for the selected tariff and for diesel.  No other key is
    present and the world is left as it was. *)
Theorem C1_bereken_emissies_values
    (gas elektra diesel : Qc) (t : tarief) ss pg :
  0 <= gas -> 0 <= elektra -> 0 <= diesel ->
  exists em,
    bereken_emissies gas elektra (tarief_label t) diesel (loaded ss pg)
      = (Ok em, loaded ss pg) /\
    dict_get em "Aardgas"
      = (if Qc_eqb gas 0 then None else Some (gas * dec 2.085)) /\
    dict_get em "Elektriciteit"
      = (if Qc_eqb elektra 0 then None else Some (elektra * tarief_factor t)) /\
    dict_get em "Diesel"
      = (if Qc_eqb diesel 0 then None else Some (diesel * dec 3.256)) /\
    (forall c, In c (keys em) ->
               c = "Aardgas" \/ c = "Elektriciteit" \/ c = "Diesel") /\
    NoDup (keys em) /\
    dict_get EMISSIEFACTOREN "Aardgas (m³)" = Some (dec 2.085) /\
    dict_get EMISSIEFACTOREN ("Elektriciteit - " ++ tarief_label t ++ " (kWh)")
      = Some (tarief_factor t) /\
    dict_get EMISSIEFACTOREN "Diesel (liter)" = Some (dec 3.256).
Proof.
  intros Hg He Hd. exists (emissies_spec gas elektra t diesel).
  split; [apply bereken_emissies_loaded |].
  destruct (emissies_spec_get gas elektra t diesel) as (Ga & Ge & Gd).
  rewrite Ga, Ge, Gd, !Qc_gtb_0_nonneg by assumption.
  repeat split.
  - now destruct (Qc_eqb gas 0).
  - now destruct (Qc_eqb elektra 0).
  - now destruct (Qc_eqb diesel 0).
  - apply emissies_spec_keys.
  - apply emissies_spec_NoDup.
  - now destruct t.
Qed.

Lemma C1_witness :
  exists em,
    bereken_emissies (dec 100) 0 (tarief_label Groen) (dec 2.5)
                     (loaded (session startup) [])
      = (Ok em, loaded (session startup) []) /\
    dict_get em "Aardgas"
      = (if Qc_eqb (dec 100) 0 then None else Some (dec 100 * dec 2.085)) /\
    dict_get em "Elektriciteit"
      = (if Qc_eqb 0 0 then None else Some (0 * tarief_factor Groen)) /\
    dict_get em "Diesel"
      = (if Qc_eqb (dec 2.5) 0 then None else Some (dec 2.5 * dec 3.256)) /\
    (forall c, In c (keys em) ->
               c = "Aardgas" \/ c = "Elektriciteit" \/ c = "Diesel") /\
    NoDup (keys em) /\
    dict_get EMISSIEFACTOREN "Aardgas (m³)" = Some (dec 2.085) /\
    dict_get EMISSIEFACTOREN ("Elektriciteit - " ++ tarief_label Groen ++ " (kWh)")
      = Some (tarief_factor Groen) /\
    dict_get EMISSIEFACTOREN "Diesel (liter)" = Some (dec 3.256).
Proof.
  apply (C1_bereken_emissies_values (dec 100) 0 (dec 2.5) Groen); qc_le.
Defined.



(** C3 (as amended).  When the button is clicked, the warning is on the
    page if and only if all three quantities are zero.  In that case no
    calculation takes place: the session state is what it was, and if it
    held no Emissions Result the run ends normally with the warning as the
    only widget, so no report is generated.  The calculator called on three
    zero quantities returns the empty mapping. *)
Theorem C3_waarschuwing (i : invoer) (w : world) :
  knop i = true ->
  existsb is_warning (page (snd (rerun i w))) = all_zero i /\
  (all_zero i = true -> session (snd (rerun i w)) = session w) /\
  (all_zero i = true -> ss_emissies (session w) = None ->
   rerun i w
   = (Ok tt,
      mk_world (g_factoren w) (session w)
        [Warning "⚠️ Voer minimaal één verbruikswaarde in om te berekenen."])) /\
  (forall s w0, bereken_emissies 0 0 s 0 w0 = (Ok [], w0)).
Proof.
  intros Hk. split; [| split; [| split]].
  - unfold rerun, main, bind. destruct (all_zero i) eqn:Hz.
    + rewrite bereken_knop_zero by assumption.
      now rewrite toon_resultaten_no_warning.
    + rewrite bereken_knop_calc by assumption. cbn [g_factoren session page].
      destruct (fst (bereken_emissies _ _ _ _ _)) as [em | e]; [| reflexivity].
      now rewrite toon_resultaten_no_warning.
  - intros Hz. unfold rerun, main, bind.
    rewrite bereken_knop_zero by assumption.
    now rewrite toon_resultaten_session.
  - intros Hz Hnone. unfold rerun, main, bind.
    rewrite bereken_knop_zero by assumption.
    now rewrite toon_resultaten_none.
  - intros s w0. apply bereken_emissies_zero.
Qed.

Lemma C3_witness :
  existsb is_warning (page (snd (rerun (mk_invoer 0 0 "Grijze stroom" 0 true) startup)))
    = all_zero (mk_invoer 0 0 "Grijze stroom" 0 true) /\
  session (snd (rerun (mk_invoer 0 0 "Grijze stroom" 0 true) startup))
    = session startup /\
  rerun (mk_invoer 0 0 "Grijze stroom" 0 true) startup
    = (Ok tt,
       mk_world (g_factoren startup) (session startup)
         [Warning "⚠️ Voer minimaal één verbruikswaarde in om te berekenen."]) /\
  (forall s w0, bereken_emissies 0 0 s 0 w0 = (Ok [], w0)).
Proof.
  destruct (C3_waarschuwing (mk_invoer 0 0 "Grijze stroom" 0 true) startup
              eq_refl) as (H1 & H2 & H3 & H4).
  split; [exact H1 |].
  split; [apply H2; vm_compute; reflexivity |].
  split; [apply H3; vm_compute; reflexivity | exact H4].
Defined.

(** C3 as the specification states it fails.  On the first run of a
    session all three quantities are zero and the button has not been
    clicked: no warning is shown.  And when the result of the worked example
    is still stored, a click with all three quantities at zero shows the
    warning above the earlier results and generates their report. *)
Lemma C3_counterexample :
  ~ spec_all_zero_case (mk_invoer 0 0 "Grijze stroom" 0 false) startup /\
  ~ spec_all_zero_case (mk_invoer 0 0 "Grijze stroom" 0 true)
      (snd (rerun voorbeeld startup)).
Proof.
  split; intros [H _]; destruct (H eq_refl) as (Hw & _ & Hd).
  - vm_compute in Hw. discriminate Hw.
  - vm_compute in Hd. discriminate Hd.
Qed.




(** C5.  Two runs of the calculator on the same quantities, one with the
    grey and one with the green tariff, list the same categories and agree
    on every entry other than electricity, gas and diesel among them; when
    electricity is present its green value is exactly 0 and its grey value
    is the quantity times 0.536. *)
Theorem C5_tarief_frame (gas elektra diesel : Qc) ss pg :
  exists grijs groen,
    bereken_emissies gas elektra "Grijze stroom" diesel (loaded ss pg)
      = (Ok grijs, loaded ss pg) /\
    bereken_emissies gas elektra "Groene stroom" diesel (loaded ss pg)
      = (Ok groen, loaded ss pg) /\
    keys grijs = keys groen /\
    dict_get grijs "Aardgas" = dict_get groen "Aardgas" /\
    dict_get grijs "Diesel" = dict_get groen "Diesel" /\
    (forall c, c <> "Elektriciteit" -> dict_get grijs c = dict_get groen c) /\
    dict_get groen "Elektriciteit"
      = (if Qc_gtb elektra 0 then Some 0 else None) /\
    dict_get grijs "Elektriciteit"
      = (if Qc_gtb elektra 0 then Some (elektra * dec 0.536) else None).
Proof.
  exists (emissies_spec gas elektra Grijs diesel),
         (emissies_spec gas elektra Groen diesel).
  split; [apply (bereken_emissies_loaded gas elektra Grijs) |].
  split; [apply (bereken_emissies_loaded gas elektra Groen) |].
  assert (Z0 : elektra * dec 0.000 = 0) by (rewrite dec_zero; ring).
  unfold emissies_spec, tarief_factor. rewrite Z0.
  destruct (Qc_gtb gas 0), (Qc_gtb elektra 0), (Qc_gtb diesel 0);
    cbn [app dict_get keys map fst];
    repeat split; try reflexivity;
    intros c Hc;
    repeat match goal with
      | |- context [String.eqb ?k c] =>
          destruct (String.eqb_spec k c); try reflexivity; try congruence
      end.
Qed.


(** C7.  For 100 m³ of gas, 300 kWh of grey electricity and no diesel the
    calculator returns exactly the mapping gas 208.5, electricity 160.8
    (no diesel entry), whose sum is 369.3; a click with these inputs stores
    that mapping with the total 369.3 and shows the metric 369.30. *)
Theorem C7_voorbeeld ss pg :
  bereken_emissies (dec 100) (dec 300) "Grijze stroom" 0 (loaded ss pg)
    = (Ok [("Aardgas", dec 208.5); ("Elektriciteit", dec 160.8)], loaded ss pg) /\
  sum (values [("Aardgas", dec 208.5); ("Elektriciteit", dec 160.8)]) = dec 369.3 /\
  ss_emissies (session (snd (rerun voorbeeld (loaded ss pg))))
    = Some [("Aardgas", dec 208.5); ("Elektriciteit", dec 160.8)] /\
  ss_totaal (session (snd (rerun voorbeeld (loaded ss pg)))) = Some (dec 369.3) /\
  hd_error (page (snd (rerun voorbeeld (loaded ss pg))))
    = Some (Metric "Totale CO₂-emissies" "369.30 kg CO₂-eq").
Proof.
  split; [| split; [exact som_voorbeeld |]].
  - rewrite (bereken_emissies_loaded _ _ Grijs). now rewrite emissies_voorbeeld.
  - rewrite (rerun_calc_session voorbeeld Grijs) by reflexivity.
    cbn [ss_emissies ss_totaal voorbeeld gas_verbruik elektra_verbruik
         diesel_verbruik].
    rewrite emissies_voorbeeld, som_voorbeeld.
    split; [reflexivity |]. split; [reflexivity |].
    vm_compute. reflexivity.
Qed.


(** C9.  The emission factor table has exactly five entries, with distinct
    labels: gas 2.085, grey electricity 0.536, green electricity 0.000,
    diesel 3.256, petrol 2.821.  The calculator, the report generator and a
    whole run of the script leave the table bound to EMISSIEFACTOREN as it
    was (the chart builder is a function of its argument alone and has no
    access to the table).  The calculator's result is the same when the
    petrol entry is overwritten or deleted.  The report's reference table
    is a header row followed by the five entries with their factors to 3
    decimals. *)
Theorem C9_emissiefactoren :
  (length EMISSIEFACTOREN = 5%nat /\ NoDup (keys EMISSIEFACTOREN) /\
   dict_get EMISSIEFACTOREN "Aardgas (m³)" = Some (dec 2.085) /\
   dict_get EMISSIEFACTOREN "Elektriciteit - Grijze stroom (kWh)" = Some (dec 0.536) /\
   dict_get EMISSIEFACTOREN "Elektriciteit - Groene stroom (kWh)" = Some (dec 0.000) /\
   dict_get EMISSIEFACTOREN "Diesel (liter)" = Some (dec 3.256) /\
   dict_get EMISSIEFACTOREN "Benzine (liter)" = Some (dec 2.821)) /\
  ((forall g e s d w,
      g_factoren (snd (bereken_emissies g e s d w)) = g_factoren w) /\
   (forall em vb tot s w,
      g_factoren (snd (genereer_pdf em vb tot s w)) = g_factoren w) /\
   (forall i w, g_factoren (snd (rerun i w)) = g_factoren w)) /\
  ((forall g e s d w v,
      fst (bereken_emissies g e s d
             (with_factoren (dict_set (g_factoren w) "Benzine (liter)" v) w))
      = fst (bereken_emissies g e s d w)) /\
   (forall g e s d w,
      fst (bereken_emissies g e s d
             (with_factoren (dict_del (g_factoren w) "Benzine (liter)") w))
      = fst (bereken_emissies g e s d w))) /\
  (forall em g e d tot s ss pg,
     exists rp,
       genereer_pdf em (verbruik_dict g e d) tot s (loaded ss pg)
         = (Ok rp, loaded ss pg) /\
       factoren_tabel_data rp
       = [ ["Energiedrager"; "Emissiefactor"; "Eenheid"];
           ["Aardgas (m³)"; "2.085"; "kg CO₂-eq"];
           ["Elektriciteit - Grijze stroom (kWh)"; "0.536"; "kg CO₂-eq"];
           ["Elektriciteit - Groene stroom (kWh)"; "0.000"; "kg CO₂-eq"];
           ["Diesel (liter)"; "3.256"; "kg CO₂-eq"];
           ["Benzine (liter)"; "2.821"; "kg CO₂-eq"] ]).
Proof.
  split; [| split; [| split]].
  - repeat split; try reflexivity.
    repeat constructor; simpl; intuition discriminate.
  - repeat split.
    + intros. apply bereken_emissies_preserves.
    + intros. apply genereer_pdf_preserves.
    + intros i w. unfold rerun.
      now rewrite (main_globals i (mk_world (g_factoren w) (session w) [])).
  - split; intros; apply bereken_emissies_lookups; simpl g_factoren;
      destruct (benzine_not_used s) as (Na & Ne & Nd);
      first [now apply dict_get_set_other | now apply dict_get_del_other].
  - intros. eexists. split; [apply genereer_pdf_run |].
    vm_compute. reflexivity.
Qed.

(** C10.  With the green tariff, a strictly positive electricity quantity
    and no gas or diesel, the calculator returns the non-empty mapping that
    holds electricity with value exactly 0, whose sum is 0.  A click with
    these inputs stores that result and then fails with ZeroDivisionError
    in the percentage column of the results table, after the metric has
    been drawn; the report generator on the same result and total returns
    normally. *)
Theorem C10_groen_deelt_door_nul (elektra : Qc) ss pg :
  0 < elektra ->
  bereken_emissies 0 elektra "Groene stroom" 0 (loaded ss pg)
    = (Ok [("Elektriciteit", 0)], loaded ss pg) /\
  sum (values [("Elektriciteit", 0)]) = 0 /\
  rerun (mk_invoer 0 elektra "Groene stroom" 0 true) (loaded ss pg)
    = (Raise ZeroDivisionError,
       mk_world EMISSIEFACTOREN
         {| ss_emissies := Some [("Elektriciteit", 0)];
            ss_totaal := Some 0;
            ss_verbruik := Some (verbruik_dict 0 elektra 0);
            ss_stroom_type := Some "Groene stroom" |}
         [Metric "Totale CO₂-emissies" "0.00 kg CO₂-eq"]) /\
  exists rp,
    genereer_pdf [("Elektriciteit", 0)] (verbruik_dict 0 elektra 0) 0
                 "Groene stroom" (loaded ss pg)
    = (Ok rp, loaded ss pg).
Proof.
  intros He.
  pose proof (emissies_spec_groen elektra He) as Hs.
  assert (H0 : sum (values [("Elektriciteit", 0)]) = 0) by qc_eq.
  split; [| split; [exact H0 | split]].
  - now apply bereken_emissies_groen.
  - unfold rerun, main, bind.
    rewrite bereken_knop_calc.
    + cbn [gas_verbruik elektra_verbruik stroom_type diesel_verbruik
             g_factoren session page loaded].
      change (mk_world EMISSIEFACTOREN ss []) with (loaded ss []).
      rewrite (bereken_emissies_loaded 0 elektra Groen 0). cbn [fst].
      rewrite Hs, H0.
      unfold toon_resultaten, percentage_kolom, bind, st_has_emissies, st_get,
        draw, py_div.
      cbn [session ss_emissies ss_totaal page g_factoren values map snd mapM].
      unfold bind. cbn [session ss_totaal]. rewrite Qc_eqb_refl.
      reflexivity.
    + reflexivity.
    + unfold all_zero. cbn [gas_verbruik elektra_verbruik diesel_verbruik].
      rewrite Qc_eqb_refl.
      destruct (Qc_eqb elektra 0) eqn:E; [| reflexivity].
      apply Qc_eqb_true in E. subst.
      apply Qclt_not_le in He. destruct He. apply Qcle_refl.
  - eexists. apply genereer_pdf_run.
Qed.

Lemma C10_witness :
  bereken_emissies 0 (dec 50) "Groene stroom" 0 startup
    = (Ok [("Elektriciteit", 0)], startup) /\
  sum (values [("Elektriciteit", 0)]) = 0 /\
  rerun (mk_invoer 0 (dec 50) "Groene stroom" 0 true) startup
    = (Raise ZeroDivisionError,
       mk_world EMISSIEFACTOREN
         {| ss_emissies := Some [("Elektriciteit", 0)];
            ss_totaal := Some 0;
            ss_verbruik := Some (verbruik_dict 0 (dec 50) 0);
            ss_stroom_type := Some "Groene stroom" |}
         [Metric "Totale CO₂-emissies" "0.00 kg CO₂-eq"]) /\
  exists rp,
    genereer_pdf [("Elektriciteit", 0)] (verbruik_dict 0 (dec 50) 0) 0
                 "Groene stroom" startup
    = (Ok rp, startup).
Proof.
  apply (C10_groen_deelt_door_nul (dec 50) (session startup) []).
  vm_compute. reflexivity.
Defined.

(** * Further properties of the code *)

(** ** The calculator on any input *)

Lemma clamp_nonneg (x : Qc) : 0 <= clamp x.
Proof.
  unfold clamp. destruct (Qc_gtb x 0) eqn:E; [| apply Qcle_refl].
  apply Qc_gtb_true in E. now apply Qclt_le_weak.
Qed.

Lemma clamp_id (x : Qc) : 0 <= x -> clamp x = x.
Proof.
  intros Hx. unfold clamp. rewrite Qc_gtb_0_nonneg by assumption.
  destruct (Qc_eqb x 0) eqn:E; [| reflexivity].
  apply Qc_eqb_true in E. now subst.
Qed.

Lemma Qc_gtb_clamp (x : Qc) : Qc_gtb (clamp x) 0 = Qc_gtb x 0.
Proof.
  unfold clamp. destruct (Qc_gtb x 0) eqn:E; [exact E | apply Qc_gtb_irrefl].
Qed.

Lemma clamp_pos (x : Qc) : Qc_gtb x 0 = true -> clamp x = x.
Proof. intros E. unfold clamp. now rewrite E. Qed.

Lemma clamp_zero (x : Qc) : Qc_gtb x 0 = false -> clamp x = 0.
Proof. intros E. unfold clamp. now rewrite E. Qed.

Lemma emissies_spec_clamp g e t d :
  emissies_spec (clamp g) (clamp e) t (clamp d) = emissies_spec g e t d.
Proof.
  unfold emissies_spec. rewrite !Qc_gtb_clamp.
  destruct (Qc_gtb g 0) eqn:Eg, (Qc_gtb e 0) eqn:Ee, (Qc_gtb d 0) eqn:Ed;
    rewrite ?(clamp_pos g), ?(clamp_pos e), ?(clamp_pos d) by assumption;
    reflexivity.
Qed.

(** The total of a result in closed form. *)
Lemma emissies_spec_sum g e t d :
  sum (values (emissies_spec g e t d))
  = clamp g * dec 2.085 + clamp e * tarief_factor t + clamp d * dec 3.256.
Proof.
  unfold emissies_spec.
  destruct (Qc_gtb g 0) eqn:Eg, (Qc_gtb e 0) eqn:Ee, (Qc_gtb d 0) eqn:Ed;
    rewrite ?(clamp_pos g), ?(clamp_pos e), ?(clamp_pos d),
            ?(clamp_zero g), ?(clamp_zero e), ?(clamp_zero d) by assumption;
    cbn [app values map snd]; rewrite ?sum_cons; unfold sum; cbn [fold_left]; ring.
Qed.

Lemma clamp_gt (x : Qc) : 0 < clamp x <-> 0 < x.
Proof. now rewrite <- !Qc_gtb_true, Qc_gtb_clamp. Qed.

Lemma this_dec_factors :
  this (dec 2.085) = (417 # 200)%Q /\ this (dec 3.256) = (407 # 125)%Q /\
  this (dec 0.536) = (67 # 125)%Q /\ this (dec 0.000) = 0%Q.
Proof. repeat split. Qed.

(** The total of a result, read in [Q]. *)
Lemma emissies_spec_sum_Q g e t d :
  (this (sum (values (emissies_spec g e t d)))
   == this (clamp g) * (417 # 200)
      + this (clamp e) * this (tarief_factor t)
      + this (clamp d) * (407 # 125))%Q.
Proof.
  rewrite emissies_spec_sum, !this_plus, !this_mult.
  destruct this_dec_factors as (-> & -> & _). reflexivity.
Qed.

Lemma totaal_pos_iff g e t d :
  0 < sum (values (emissies_spec g e t d))
  <-> (0 < g \/ 0 < d \/ (0 < e /\ t = Grijs)).
Proof.
  rewrite <- (clamp_gt g), <- (clamp_gt d), <- (clamp_gt e).
  pose proof (clamp_nonneg g) as Hg. pose proof (clamp_nonneg e) as He.
  pose proof (clamp_nonneg d) as Hd.
  unfold Qclt, Qcle in *. rewrite emissies_spec_sum_Q.
  change (this 0) with 0%Q in *.
  destruct this_dec_factors as (_ & _ & F1 & F0).
  destruct t; cbn [tarief_factor]; rewrite ?F1, ?F0; split.
  - intros H.
    destruct (Qlt_le_dec 0 (this (clamp g))) as [|G]; [now left |].
    destruct (Qlt_le_dec 0 (this (clamp d))) as [|D]; [now right; left |].
    right; right. split; [lra | reflexivity].
  - intros [H | [H | [H _]]]; lra.
  - intros H.
    destruct (Qlt_le_dec 0 (this (clamp g))) as [|G]; [now left |].
    destruct (Qlt_le_dec 0 (this (clamp d))) as [|D]; [now right; left |].
    lra.
  - intros [H | [H | [_ H]]]; [lra | lra | discriminate H].
Qed.

Lemma totaal_nonneg g e t d : 0 <= sum (values (emissies_spec g e t d)).
Proof.
  pose proof (clamp_nonneg g) as Hg. pose proof (clamp_nonneg e) as He.
  pose proof (clamp_nonneg d) as Hd.
  unfold Qcle in *. rewrite emissies_spec_sum_Q.
  change (this 0) with 0%Q in *.
  destruct this_dec_factors as (_ & _ & F1 & F0).
  destruct t; cbn [tarief_factor]; rewrite ?F1, ?F0; lra.
Qed.

(** ** Strings *)

Lemma string_length_app (a b : string) :
  String.length (a ++ b) = (String.length a + String.length b)%nat.
Proof. induction a as [| c a IH]; simpl; [reflexivity | now rewrite IH]. Qed.

Lemma string_app_inj_r (s t a : string) : s ++ a = t ++ a -> s = t.
Proof.
  revert t. induction s as [| c s IH]; intros [| c' t] H; simpl in H.
  - reflexivity.
  - apply (f_equal String.length) in H. simpl in H.
    rewrite string_length_app in H. lia.
  - apply (f_equal String.length) in H. simpl in H.
    rewrite string_length_app in H. lia.
  - injection H as -> H. f_equal. now apply IH.
Qed.

(** The key built from a tariff string is in the table only for the two
    tariffs of the selector. *)
Lemma factor_key_unknown (s : string) :
  (forall t, s <> tarief_label t) ->
  dict_get EMISSIEFACTOREN ("Elektriciteit - " ++ s ++ " (kWh)") = None.
Proof.
  intros Hs. unfold EMISSIEFACTOREN. cbn [dict_get].
  repeat match goal with
    | |- context [String.eqb ?k ?x] =>
        destruct (String.eqb_spec k x) as [E | _]
    end; try reflexivity; exfalso.
  - cbn in E. discriminate E.
  - cbn in E. injection E as E.
    apply (string_app_inj_r "Grijze stroom" s " (kWh)") in E.
    now apply (Hs Grijs).
  - cbn in E. injection E as E.
    apply (string_app_inj_r "Groene stroom" s " (kWh)") in E.
    now apply (Hs Groen).
  - cbn in E. discriminate E.
  - cbn in E. discriminate E.
Qed.

(** ** The results section in closed form *)

Lemma percentage_kolom_ok tot vals w :
  ss_totaal (session w) = Some tot -> Qc_eqb tot 0 = false ->
  percentage_kolom vals w = (Ok (percentage_ui tot vals), w).
Proof.
  intros Ht Hz. unfold percentage_kolom, percentage_ui.
  unfold bind, st_get, py_div, ret.
  induction vals as [| v r IH]; cbn [mapM map]; [reflexivity |].
  unfold bind, ret. cbv beta. rewrite Ht, Hz, IH. reflexivity.
Qed.

Lemma percentage_kolom_zero v r w :
  ss_totaal (session w) = Some 0 ->
  percentage_kolom (v :: r) w = (Raise ZeroDivisionError, w).
Proof.
  intros Ht. unfold percentage_kolom. cbn [mapM].
  unfold bind, st_get, py_div, raise. cbv beta.
  now rewrite Ht, Qc_eqb_refl.
Qed.

(** The results section on a session state that holds all four keys, the
    consumption being the dict that [main] stores: it stops with
    ZeroDivisionError after the metric when the result is not empty and
    the total is 0, and draws the whole section otherwise. *)
Lemma toon_resultaten_vol tabel em tot g e d s pg :
  toon_resultaten
    (mk_world tabel
       (mk_session (Some em) (Some tot) (Some (verbruik_dict g e d)) (Some s)) pg)
  = if Qc_eqb tot 0 && negb (dict_empty em)
    then (Raise ZeroDivisionError,
          mk_world tabel
            (mk_session (Some em) (Some tot) (Some (verbruik_dict g e d)) (Some s))
            (pg ++ [Metric "Totale CO₂-emissies" (format_f 2 tot ++ " kg CO₂-eq")]))
    else (Ok tt,
          mk_world tabel
            (mk_session (Some em) (Some tot) (Some (verbruik_dict g e d)) (Some s))
            (pg ++ resultaten_pagina tabel em tot g e d s)).
Proof.
  unfold toon_resultaten, bind, st_has_emissies, st_get, draw.
  cbn [session ss_emissies ss_totaal ss_verbruik ss_stroom_type page g_factoren].
  destruct (Qc_eqb tot 0) eqn:Hz; [destruct em as [| [c v] r] |]; cbn [andb negb dict_empty].
  - (* empty result, total 0 *)
    apply Qc_eqb_true in Hz. subst tot.
    change (percentage_kolom (values []))
      with (fun w : world => (Ok (percentage_ui 0 (values (@nil (string * Qc)))), w)).
    cbv beta.
    cbn [session ss_emissies ss_totaal ss_verbruik ss_stroom_type page g_factoren].
    unfold resultaten_pagina.
    cbn [maak_staafdiagram dict_empty ret
         session ss_emissies ss_totaal ss_verbruik ss_stroom_type page g_factoren].
    rewrite genereer_pdf_run.
    cbn [session page g_factoren]. unfold append.
    now rewrite <- !app_assoc.
  - apply Qc_eqb_true in Hz. subst tot.
    change (values ((c, v) :: r)) with (v :: values r).
    rewrite percentage_kolom_zero by reflexivity. reflexivity.
  - rewrite (percentage_kolom_ok tot) by (reflexivity || assumption).
    cbn [session ss_emissies ss_totaal ss_verbruik ss_stroom_type page g_factoren].
    unfold resultaten_pagina.
    destruct (maak_staafdiagram em) as [fig |];
      cbn [ret session ss_emissies ss_totaal ss_verbruik ss_stroom_type page g_factoren];
      rewrite genereer_pdf_run;
      cbn [session page g_factoren]; unfold append;
      now rewrite <- !app_assoc.
Qed.

(** ** A run of the script in closed form *)

Lemma rerun_stil i w :
  knop i = false ->
  rerun i w = toon_resultaten (mk_world (g_factoren w) (session w) []).
Proof.
  intros Hk. unfold rerun, main, bind. now rewrite bereken_knop_off.
Qed.

Lemma rerun_nul i w :
  knop i = true -> all_zero i = true ->
  rerun i w = toon_resultaten (mk_world (g_factoren w) (session w) [waarschuwing]).
Proof.
  intros Hk Hz. unfold rerun, main, bind. now rewrite bereken_knop_zero.
Qed.

Lemma rerun_klik i t ss pg :
  knop i = true -> all_zero i = false -> stroom_type i = tarief_label t ->
  rerun i (loaded ss pg)
  = toon_resultaten
      (loaded (opgeslagen (gas_verbruik i) (elektra_verbruik i) (tarief_label t)
                 (diesel_verbruik i)
                 (emissies_spec (gas_verbruik i) (elektra_verbruik i) t
                    (diesel_verbruik i)))
              []).
Proof.
  intros Hk Hz Ht. unfold rerun, main, bind.
  rewrite bereken_knop_calc by assumption. cbn [g_factoren session page loaded].
  rewrite Ht.
  change (mk_world EMISSIEFACTOREN ss []) with (loaded ss []).
  rewrite bereken_emissies_loaded. reflexivity.
Qed.

Lemma rerun_fout i e w :
  knop i = true -> all_zero i = false ->
  fst (bereken_emissies (gas_verbruik i) (elektra_verbruik i) (stroom_type i)
         (diesel_verbruik i) (mk_world (g_factoren w) (session w) []))
  = Raise e ->
  rerun i w = (Raise e, mk_world (g_factoren w) (session w) []).
Proof.
  intros Hk Hz He. unfold rerun, main, bind.
  rewrite bereken_knop_calc by assumption. now rewrite He.
Qed.

Lemma emissies_spec_niet_leeg g e t d :
  0 <= g -> 0 <= e -> 0 <= d ->
  Qc_eqb g 0 && Qc_eqb e 0 && Qc_eqb d 0 = false ->
  emissies_spec g e t d <> [].
Proof.
  intros Hg He Hd Hz. unfold emissies_spec.
  rewrite !Qc_gtb_0_nonneg by assumption.
  destruct (Qc_eqb g 0), (Qc_eqb e 0), (Qc_eqb d 0);
    cbn in *; discriminate.
Qed.

Lemma Qc_pos_of_nonneg (x : Qc) : 0 <= x -> x <> 0 -> 0 < x.
Proof.
  intros Hx Hne. apply Qcle_lt_or_eq in Hx. destruct Hx as [H | H]; [exact H |].
  now symmetry in H.
Qed.

Lemma Qc_eqb_false (x y : Qc) : Qc_eqb x y = false <-> x <> y.
Proof.
  rewrite <- Qc_eqb_true. destruct (Qc_eqb x y); split; congruence.
Qed.

(** The results section on a session state in order. *)
Lemma toon_sessie_ok ss pre :
  sessie_ok ss ->
  (ss = leeg /\ toon_resultaten (loaded ss pre) = (Ok tt, loaded ss pre)) \/
  exists g e t d,
    0 <= g /\ 0 <= e /\ 0 <= d /\
    ss = opgeslagen g e (tarief_label t) d (emissies_spec g e t d) /\
    ((sum (values (emissies_spec g e t d)) = 0 /\
      toon_resultaten (loaded ss pre)
      = (Raise ZeroDivisionError,
         loaded ss (pre ++ [Metric "Totale CO₂-emissies"
                              (format_f 2 (sum (values (emissies_spec g e t d)))
                               ++ " kg CO₂-eq")]))) \/
     (0 < sum (values (emissies_spec g e t d)) /\
      toon_resultaten (loaded ss pre)
      = (Ok tt,
         loaded ss (pre ++ resultaten_pagina EMISSIEFACTOREN
                             (emissies_spec g e t d)
                             (sum (values (emissies_spec g e t d)))
                             g e d (tarief_label t))))).
Proof.
  intros [-> | (g & e & t & d & Hg & He & Hd & Hne & ->)].
  - left. split; [reflexivity |]. now apply toon_resultaten_none.
  - right. exists g, e, t, d. repeat (split; [assumption |]).
    split; [reflexivity |].
    unfold loaded, opgeslagen. rewrite toon_resultaten_vol.
    assert (Hem : negb (dict_empty (emissies_spec g e t d)) = true)
      by (destruct (emissies_spec g e t d); [contradiction | reflexivity]).
    rewrite Hem, andb_true_r.
    destruct (Qc_eqb (sum (values (emissies_spec g e t d))) 0) eqn:Hz.
    + left. apply Qc_eqb_true in Hz. split; [exact Hz | reflexivity].
    + right. apply Qc_eqb_false in Hz. split; [| reflexivity].
      apply Qc_pos_of_nonneg; [apply totaal_nonneg | exact Hz].
Qed.

(** One run from a world in order, with inputs the widgets can return:
    where it leaves the session state, and what the results section is
    then run on. *)
Lemma rerun_geldig i ss pg :
  geldig i -> sessie_ok ss ->
  exists ss' pre,
    sessie_ok ss' /\ (pre = [] \/ pre = [waarschuwing]) /\
    rerun i (loaded ss pg) = toon_resultaten (loaded ss' pre).
Proof.
  intros (Hg & He & Hd & t & Ht) Hss.
  destruct (knop i) eqn:Hk; [destruct (all_zero i) eqn:Hz |].
  - exists ss, [waarschuwing]. split; [exact Hss |]. split; [now right |].
    now rewrite rerun_nul.
  - eexists _, []. split; [| split; [now left | apply (rerun_klik i t); assumption]].
    right. exists (gas_verbruik i), (elektra_verbruik i), t, (diesel_verbruik i).
    repeat (split; [assumption |]). split; [| reflexivity].
    now apply emissies_spec_niet_leeg.
  - exists ss, []. split; [exact Hss |]. split; [now left |].
    now rewrite rerun_stil.
Qed.

Lemma loaded_eta w : g_factoren w = EMISSIEFACTOREN -> w = loaded (session w) (page w).
Proof. destruct w as [tbl ss pg]. cbn. now intros ->. Qed.

Lemma bereikbaar_inv w :
  bereikbaar w -> g_factoren w = EMISSIEFACTOREN /\ sessie_ok (session w).
Proof.
  induction 1 as [| i w0 Hi Hw [IHg IHs]].
  - split; [reflexivity | now left].
  - split; [unfold rerun; now rewrite main_globals |].
    rewrite (loaded_eta w0 IHg).
    destruct (rerun_geldig i (session w0) (page w0) Hi IHs)
      as (ss' & pre & Hss' & _ & ->).
    now rewrite toon_resultaten_session.
Qed.

Lemma bereikbaar_pagina w : bereikbaar w -> pagina_ok w.
Proof.
  intros [| i w0 Hi Hw].
  - exists []. split; [now left | now left].
  - destruct (bereikbaar_inv w0 Hw) as [Hgl Hss].
    rewrite (loaded_eta w0 Hgl).
    destruct (rerun_geldig i (session w0) (page w0) Hi Hss)
      as (ss' & pre & Hss' & Hpre & ->).
    exists pre. split; [exact Hpre |].
    destruct (toon_sessie_ok ss' pre Hss')
      as [[-> ->] | (g & e & t & d & Hg & He & Hd & -> & [[H0 ->] | [Hpos ->]])].
    + now left.
    + right. exists g, e, t, d. repeat (split; [assumption |]).
      split; [reflexivity |]. left. split; [exact H0 | reflexivity].
    + right. exists g, e, t, d. repeat (split; [assumption |]).
      split; [reflexivity |]. right. split; [exact Hpos | reflexivity].
Qed.

Lemma bereken_emissies_onbekend g e s d ss pg :
  (forall t, s <> tarief_label t) ->
  bereken_emissies g e s d (loaded ss pg)
  = (if Qc_gtb e 0
     then Raise (KeyError ("Elektriciteit - " ++ s ++ " (kWh)"))
     else Ok (emissies_spec g e Grijs d),
     loaded ss pg).
Proof.
  intros Hs. unfold bereken_emissies, emissies_spec, bind, factor, ret, loaded.
  destruct (Qc_gtb g 0), (Qc_gtb e 0), (Qc_gtb d 0);
    repeat first
      [ rewrite (factor_key_unknown s Hs)
      | progress cbn [g_factoren]
      | progress change (dict_get EMISSIEFACTOREN "Aardgas (m³)")
          with (Some (dec 2.085))
      | progress cbv beta iota ];
    reflexivity.
Qed.

Lemma toon_resultaten_zde w entry rest :
  ss_emissies (session w) = Some (entry :: rest) ->
  ss_totaal (session w) = Some 0 ->
  fst (toon_resultaten w) = Raise ZeroDivisionError.
Proof.
  destruct w as [tbl [oem otot ovb os] pg]. cbn. intros -> ->.
  unfold toon_resultaten, bind, st_has_emissies, st_get, draw.
  cbn [session ss_emissies ss_totaal page g_factoren].
  destruct entry as [c v]. change (values ((c, v) :: rest)) with (v :: values rest).
  now rewrite percentage_kolom_zero.
Qed.

Lemma geldig_voorbeeld : geldig voorbeeld.
Proof.
  repeat split; try qc_le. now exists Grijs.
Qed.

(** ** Further properties: the calculator *)

(** X1.  The calculator treats a quantity that is not strictly positive as
    zero: replacing every such quantity by 0 changes neither its result
    nor its error, in any world and for any tariff string. *)
Theorem X1_bereken_emissies_clamp g e s d w :
  bereken_emissies g e s d w
  = bereken_emissies (clamp g) (clamp e) s (clamp d) w.
Proof.
  unfold bereken_emissies. rewrite !Qc_gtb_clamp.
  destruct (Qc_gtb g 0) eqn:Eg, (Qc_gtb e 0) eqn:Ee, (Qc_gtb d 0) eqn:Ed;
    rewrite ?(clamp_pos g Eg), ?(clamp_pos e Ee), ?(clamp_pos d Ed);
    reflexivity.
Qed.

(** X2.  With a tariff string that is not one of the selector's two
    options, the calculator raises KeyError for the key it built from the
    string when the electricity quantity is strictly positive, and
    otherwise returns the gas and diesel entries without looking the
    tariff up. *)
Theorem X2_onbekend_tarief g e s d ss pg :
  (forall t, s <> tarief_label t) ->
  bereken_emissies g e s d (loaded ss pg)
  = (if Qc_gtb e 0
     then Raise (KeyError ("Elektriciteit - " ++ s ++ " (kWh)"))
     else Ok ((if Qc_gtb g 0 then [("Aardgas", g * dec 2.085)] else [])
              ++ (if Qc_gtb d 0 then [("Diesel", d * dec 3.256)] else []))%list,
     loaded ss pg).
Proof.
  intros Hs. rewrite bereken_emissies_onbekend by assumption.
  unfold emissies_spec. now destruct (Qc_gtb e 0).
Qed.

Lemma X2_witness :
  bereken_emissies (dec 10) (dec 5) "Zonnestroom" 0 (loaded leeg [])
  = (if Qc_gtb (dec 5) 0
     then Raise (KeyError ("Elektriciteit - " ++ "Zonnestroom" ++ " (kWh)"))
     else Ok ((if Qc_gtb (dec 10) 0 then [("Aardgas", dec 10 * dec 2.085)] else [])
              ++ (if Qc_gtb 0 0 then [("Diesel", 0 * dec 3.256)] else []))%list,
     loaded leeg []).
Proof.
  apply (X2_onbekend_tarief (dec 10) (dec 5) "Zonnestroom" 0 leeg []).
  intros t; destruct t; simpl; discriminate.
Defined.

(** X3.  For either tariff and any quantities, negative ones included,
    the calculator returns the entries of the strictly positive quantities
    in the order gas, electricity, diesel ([emissies_spec]).  The total of
    the result is 2.085 times the gas quantity plus the tariff's factor
    times the electricity quantity plus 3.256 times the diesel quantity,
    each quantity counted as 0 when it is not positive.  The total is never
    negative, and it is positive exactly when gas or diesel is positive or
    electricity is positive under the grey tariff. *)
Theorem X3_totaal_formule g e t d ss pg :
  exists em,
    bereken_emissies g e (tarief_label t) d (loaded ss pg) = (Ok em, loaded ss pg) /\
    em = emissies_spec g e t d /\
    sum (values em)
      = clamp g * dec 2.085 + clamp e * tarief_factor t + clamp d * dec 3.256 /\
    0 <= sum (values em) /\
    (0 < sum (values em) <-> 0 < g \/ 0 < d \/ (0 < e /\ t = Grijs)).
Proof.
  exists (emissies_spec g e t d).
  split; [apply bereken_emissies_loaded |].
  split; [reflexivity |].
  split; [apply emissies_spec_sum |].
  split; [apply totaal_nonneg | apply totaal_pos_iff].
Qed.

(** ** Further properties: runs of the script *)



(** X5.  A click with a positive electricity quantity and a tariff string
    that is not one of the two options ends with KeyError for the key built
    from the string: nothing is stored, the session state is what it was,
    and nothing is drawn, not even results stored earlier. *)
Theorem X5_klik_onbekend_tarief i ss pg :
  knop i = true -> 0 < elektra_verbruik i ->
  (forall t, stroom_type i <> tarief_label t) ->
  rerun i (loaded ss pg)
  = (Raise (KeyError ("Elektriciteit - " ++ stroom_type i ++ " (kWh)")),
     loaded ss []).
Proof.
  intros Hk He Hs.
  apply (rerun_fout i _ (loaded ss pg)); [exact Hk | |].
  - unfold all_zero.
    assert (E : Qc_eqb (elektra_verbruik i) 0 = false).
    { apply Qc_eqb_false. intros E. rewrite E in He.
      apply Qclt_not_le in He. apply He, Qcle_refl. }
    rewrite E. now rewrite andb_false_r.
  - cbn [g_factoren session loaded].
    change (mk_world EMISSIEFACTOREN ss []) with (loaded ss []).
    rewrite bereken_emissies_onbekend by assumption.
    apply Qc_gtb_true in He. now rewrite He.
Qed.

Lemma X5_witness :
  rerun (mk_invoer 0 (dec 5) "Zonnestroom" 0 true) (loaded leeg [])
  = (Raise (KeyError ("Elektriciteit - " ++ "Zonnestroom" ++ " (kWh)")),
     loaded leeg []).
Proof.
  apply (X5_klik_onbekend_tarief (mk_invoer 0 (dec 5) "Zonnestroom" 0 true) leeg []).
  - reflexivity.
  - vm_compute. reflexivity.
  - intros t; destruct t; simpl; discriminate.
Defined.

(** X6.  The outcome of a click that calculates (some quantity non-zero,
    one of the two tariffs) does not depend on the session state or the
    page it starts from: the session record is replaced as a whole. *)
Theorem X6_klik_overschrijft i t ss1 pg1 ss2 pg2 :
  knop i = true -> all_zero i = false -> stroom_type i = tarief_label t ->
  rerun i (loaded ss1 pg1) = rerun i (loaded ss2 pg2).
Proof.
  intros Hk Hz Ht. now rewrite !(rerun_klik i t) by assumption.
Qed.

Lemma X6_witness :
  rerun voorbeeld (loaded leeg [])
  = rerun voorbeeld (loaded (session (snd (rerun voorbeeld startup))) [waarschuwing]).
Proof.
  apply (X6_klik_overschrijft voorbeeld Grijs); vm_compute; reflexivity.
Defined.

(** X7.  A run without a click only redraws: it leaves the session state
    alone, and running once more without a click, whatever the widgets
    then hold, gives the same outcome and the same page. *)
Theorem X7_hertekenen i j w :
  knop i = false -> knop j = false ->
  session (snd (rerun i w)) = session w /\
  rerun j (snd (rerun i w)) = rerun i w.
Proof.
  intros Hi Hj. rewrite (rerun_stil j) by assumption.
  rewrite !(rerun_stil i) by assumption.
  now rewrite toon_resultaten_session, toon_resultaten_globals.
Qed.

Lemma X7_witness :
  session (snd (rerun (mk_invoer 0 0 "Groene stroom" 0 false)
                  (snd (rerun voorbeeld startup))))
    = session (snd (rerun voorbeeld startup)) /\
  rerun (mk_invoer (dec 7) 0 "Grijze stroom" 0 false)
        (snd (rerun (mk_invoer 0 0 "Groene stroom" 0 false)
                (snd (rerun voorbeeld startup))))
    = rerun (mk_invoer 0 0 "Groene stroom" 0 false) (snd (rerun voorbeeld startup)).
Proof.
  apply (X7_hertekenen (mk_invoer 0 0 "Groene stroom" 0 false)
           (mk_invoer (dec 7) 0 "Grijze stroom" 0 false)); reflexivity.
Defined.

(** X8.  Once a non-empty result with total 0 is stored, every run that
    does not calculate anew (no click, or a click with all quantities at
    zero) ends with ZeroDivisionError again and leaves the session state as
    it is. *)
Theorem X8_fout_blijft i w entry rest :
  ss_emissies (session w) = Some (entry :: rest) ->
  ss_totaal (session w) = Some 0 ->
  knop i = false \/ all_zero i = true ->
  fst (rerun i w) = Raise ZeroDivisionError /\
  session (snd (rerun i w)) = session w.
Proof.
  intros Hem Htot Hi.
  assert (H : rerun i w = toon_resultaten (mk_world (g_factoren w) (session w) [])
              \/ rerun i w
                 = toon_resultaten (mk_world (g_factoren w) (session w) [waarschuwing])).
  { destruct (knop i) eqn:Hk.
    - right. apply rerun_nul; [exact Hk |]. now destruct Hi.
    - left. now apply rerun_stil. }
  destruct H as [-> | ->]; rewrite toon_resultaten_session;
    (split; [| reflexivity]);
    now apply (toon_resultaten_zde _ entry rest).
Qed.

Lemma X8_witness :
  fst (rerun (mk_invoer 0 0 "Grijze stroom" 0 true)
         (snd (rerun (mk_invoer 0 (dec 50) "Groene stroom" 0 true) startup)))
    = Raise ZeroDivisionError /\
  session (snd (rerun (mk_invoer 0 0 "Grijze stroom" 0 true)
                  (snd (rerun (mk_invoer 0 (dec 50) "Groene stroom" 0 true) startup))))
    = session (snd (rerun (mk_invoer 0 (dec 50) "Groene stroom" 0 true) startup)).
Proof.
  apply (X8_fout_blijft (mk_invoer 0 0 "Grijze stroom" 0 true)
           (snd (rerun (mk_invoer 0 (dec 50) "Groene stroom" 0 true) startup))
           ("Elektriciteit", dec 50 * dec 0.000) []).
  - vm_compute. reflexivity.
  - vm_compute. reflexivity.
  - right. vm_compute. reflexivity.
Defined.

(** ** Further properties: every world a user can reach *)

Lemma emissie_kolom_spec k vt em tot ft :
  emissie_kolom k (mk_rapport vt (emissie_tabel_spec em tot) ft)
  = map (fun ev => nth k (emissie_rij tot ev) "") em.
Proof.
  unfold emissie_kolom, emissie_tabel_spec. cbn [emissie_tabel_data tl].
  rewrite removelast_last. now rewrite map_map.
Qed.

Lemma percentage_ui_spec tot em :
  0 < tot ->
  percentage_ui tot (values em)
  = map (fun ev => nth 2 (emissie_rij tot ev) "") em.
Proof.
  intros Ht. unfold percentage_ui, values. rewrite map_map.
  apply map_ext. intros [c v]. unfold emissie_rij, percentage_spec.
  apply Qc_gtb_true in Ht. now rewrite Ht.
Qed.

(** What a download button on a page in order carries, and the results
    table beside it. *)
Lemma pagina_download w lbl rp :
  pagina_ok w -> In (DownloadButton lbl rp) (page w) ->
  exists g e t d,
    0 <= g /\ 0 <= e /\ 0 <= d /\
    0 < sum (values (emissies_spec g e t d)) /\
    session w = opgeslagen g e (tarief_label t) d (emissies_spec g e t d) /\
    rp = {| verbruik_tabel_data := verbruik_tabel_spec g e d (tarief_label t);
            emissie_tabel_data :=
              emissie_tabel_spec (emissies_spec g e t d)
                (sum (values (emissies_spec g e t d)));
            factoren_tabel_data := factoren_tabel_spec EMISSIEFACTOREN |} /\
    forall cols,
      In (Dataframe cols) (page w) ->
      cols = [ ("Categorie", keys (emissies_spec g e t d));
               ("CO₂-emissies (kg)",
                map (format_f 2) (values (emissies_spec g e t d)));
               ("Percentage",
                percentage_ui (sum (values (emissies_spec g e t d)))
                  (values (emissies_spec g e t d))) ].
Proof.
  intros (pre & Hpre & Hpage) Hin.
  assert (Hno : forall x, In x pre -> x = waarschuwing).
  { intros x Hx. destruct Hpre as [-> | ->]; simpl in Hx; intuition. }
  destruct Hpage
    as [Hp | (g & e & t & d & Hg & He & Hd & Hss & [[_ Hp] | [Hpos Hp]])];
    rewrite Hp in *.
  - apply Hno in Hin. discriminate Hin.
  - apply in_app_or in Hin. destruct Hin as [Hin | [Hin | []]];
      [apply Hno in Hin |]; discriminate Hin.
  - exists g, e, t, d. repeat (split; [assumption |]).
    unfold resultaten_pagina in *.
    split.
    + apply in_app_or in Hin. destruct Hin as [Hin | Hin];
        [apply Hno in Hin; discriminate Hin |].
      destruct (maak_staafdiagram (emissies_spec g e t d)); simpl in Hin;
        repeat (destruct Hin as [Hin | Hin]; try discriminate Hin);
        try contradiction; now injection Hin as _ <-.
    + intros cols Hc.
      apply in_app_or in Hc. destruct Hc as [Hc | Hc];
        [apply Hno in Hc; discriminate Hc |].
      destruct (maak_staafdiagram (emissies_spec g e t d)); simpl in Hc;
        repeat (destruct Hc as [Hc | Hc]; try discriminate Hc);
        try contradiction; now injection Hc as <-.
Qed.



(** X10.  From a world a user can reach, a run with inputs the widgets can
    return never ends with KeyError: it ends normally, or with
    ZeroDivisionError, and then the stored total is 0. *)
Theorem X10_geen_keyerror i w :
  bereikbaar w -> geldig i ->
  fst (rerun i w) = Ok tt \/
  (fst (rerun i w) = Raise ZeroDivisionError /\
   ss_totaal (session (snd (rerun i w))) = Some 0).
Proof.
  intros Hw Hi. destruct (bereikbaar_inv w Hw) as [Hg Hs].
  rewrite (loaded_eta w Hg).
  destruct (rerun_geldig i (session w) (page w) Hi Hs)
    as (ss' & pre & Hss' & _ & ->).
  destruct (toon_sessie_ok ss' pre Hss')
    as [[-> ->] | (g & e & t & d & _ & _ & _ & -> & [[H0 ->] | [_ ->]])].
  - now left.
  - right. split; [reflexivity |]. cbn. now rewrite H0.
  - now left.
Qed.

Lemma X10_witness :
  fst (rerun (mk_invoer 0 (dec 50) "Groene stroom" 0 true)
         (snd (rerun voorbeeld startup))) = Ok tt \/
  (fst (rerun (mk_invoer 0 (dec 50) "Groene stroom" 0 true)
          (snd (rerun voorbeeld startup))) = Raise ZeroDivisionError /\
   ss_totaal (session (snd (rerun (mk_invoer 0 (dec 50) "Groene stroom" 0 true)
                              (snd (rerun voorbeeld startup))))) = Some 0).
Proof.
  apply (X10_geen_keyerror (mk_invoer 0 (dec 50) "Groene stroom" 0 true)
           (snd (rerun voorbeeld startup))).
  - apply bereik_rerun; [| apply bereik_startup].
    repeat split; try qc_le. exists Grijs. reflexivity.
  - repeat split; try qc_le. exists Groen. reflexivity.
Defined.


(** X12.  In every world a user can reach, when the page shows both the
    results table and the download button, the three columns of the table
    are the three columns of the data rows of the report's emissions
    table: screen and report show the same categories, values and
    percentages. *)
Theorem X12_tabel_gelijk_rapport w cols lbl rp :
  bereikbaar w ->
  In (Dataframe cols) (page w) -> In (DownloadButton lbl rp) (page w) ->
  cols = [ ("Categorie", emissie_kolom 0 rp);
           ("CO₂-emissies (kg)", emissie_kolom 1 rp);
           ("Percentage", emissie_kolom 2 rp) ].
Proof.
  intros Hw Hc Hin.
  destruct (pagina_download w lbl rp (bereikbaar_pagina w Hw) Hin)
    as (g & e & t & d & Hg & He & Hd & Hpos & Hss & -> & Hcols).
  rewrite (Hcols cols Hc), !emissie_kolom_spec.
  rewrite (percentage_ui_spec _ _ Hpos).
  unfold keys, values. rewrite map_map. reflexivity.
Qed.


Lemma X12_witness :
  voorbeeld_tabel
  = [ ("Categorie", emissie_kolom 0 voorbeeld_rapport);
      ("CO₂-emissies (kg)", emissie_kolom 1 voorbeeld_rapport);
      ("Percentage", emissie_kolom 2 voorbeeld_rapport) ].
Proof.
  apply (X12_tabel_gelijk_rapport (snd (rerun voorbeeld startup)) voorbeeld_tabel
           "📥 Download Rapport (PDF)" voorbeeld_rapport).
  - apply bereik_rerun; [| apply bereik_startup].
    repeat split; try qc_le. exists Grijs. reflexivity.
  - vm_compute. right. left. reflexivity.
  - vm_compute. do 3 right. left. reflexivity.
Defined.

(** ** Further properties: the report generator and the chart *)

Lemma genereer_pdf_sleutels em vb tot s w :
  genereer_pdf em vb tot s w
  = match dict_get vb "gas" with
    | None => (Raise (KeyError "gas"), w)
    | Some g =>
        match dict_get vb "elektra" with
        | None => (Raise (KeyError "elektra"), w)
        | Some e =>
            match dict_get vb "diesel" with
            | None => (Raise (KeyError "diesel"), w)
            | Some d =>
                (Ok {| verbruik_tabel_data := verbruik_tabel_spec g e d s;
                       emissie_tabel_data := emissie_tabel_spec em tot;
                       factoren_tabel_data := factoren_tabel_spec (g_factoren w) |},
                 w)
            end
        end
    end.
Proof.
  destruct (dict_get vb "gas") as [g |] eqn:Hg;
    [destruct (dict_get vb "elektra") as [e |] eqn:He;
     [destruct (dict_get vb "diesel") as [d |] eqn:Hd |] |].
  - now apply genereer_pdf_get.
  - unfold genereer_pdf, subscript, bind, ret, raise. now rewrite Hg, He, Hd.
  - unfold genereer_pdf, subscript, bind, ret, raise. now rewrite Hg, He.
  - unfold genereer_pdf, subscript, bind, ret, raise. now rewrite Hg.
Qed.

Lemma drie_kolommen_emissie em tot : drie_kolommen (emissie_tabel_spec em tot).
Proof.
  unfold drie_kolommen, emissie_tabel_spec.
  constructor; [reflexivity |]. apply Forall_app. split.
  - apply Forall_forall. intros rij Hr. apply in_map_iff in Hr.
    destruct Hr as (ev & <- & _). reflexivity.
  - now repeat constructor.
Qed.

Lemma drie_kolommen_factoren tabel : drie_kolommen (factoren_tabel_spec tabel).
Proof.
  unfold drie_kolommen, factoren_tabel_spec.
  constructor; [reflexivity |].
  apply Forall_forall. intros rij Hr. apply in_map_iff in Hr.
  destruct Hr as (ev & <- & _). reflexivity.
Qed.

(** X13.  The report generator looks the keys gas, elektra and diesel up
    in the consumption mapping, in this order, and raises KeyError for the
    first one that is missing, before anything else is computed; other
    keys of the mapping are ignored.  With all three present it returns the
    three tables, whatever the result, the total (zero or negative
    included) and the tariff string are.  The world is never changed. *)
Theorem X13_genereer_pdf_sleutels em vb tot s w :
  genereer_pdf em vb tot s w
  = match dict_get vb "gas" with
    | None => (Raise (KeyError "gas"), w)
    | Some g =>
        match dict_get vb "elektra" with
        | None => (Raise (KeyError "elektra"), w)
        | Some e =>
            match dict_get vb "diesel" with
            | None => (Raise (KeyError "diesel"), w)
            | Some d =>
                (Ok {| verbruik_tabel_data :=
                         [ ["Energiedrager"; "Verbruik"; "Eenheid"];
                           ["Aardgas"; format_f 2 g; "m³"];
                           ["Elektriciteit"; format_f 2 e; "kWh"];
                           ["Stroomtype"; s; ""];
                           ["Diesel"; format_f 2 d; "liter"] ];
                       emissie_tabel_data := emissie_tabel_spec em tot;
                       factoren_tabel_data := factoren_tabel_spec (g_factoren w) |},
                 w)
            end
        end
    end.
Proof. apply genereer_pdf_sleutels. Qed.

(** X14.  Every report the generator returns has rectangular tables of
    three columns: five rows of consumption, one row per entry of the
    result between a header and the totals row, and one row per entry of
    the factor table under a header. *)
Theorem X14_tabellen_drie_kolommen em vb tot s w rp :
  fst (genereer_pdf em vb tot s w) = Ok rp ->
  drie_kolommen (verbruik_tabel_data rp) /\
  drie_kolommen (emissie_tabel_data rp) /\
  drie_kolommen (factoren_tabel_data rp) /\
  length (verbruik_tabel_data rp) = 5%nat /\
  length (emissie_tabel_data rp) = (length em + 2)%nat /\
  length (factoren_tabel_data rp) = (length (g_factoren w) + 1)%nat.
Proof.
  rewrite genereer_pdf_sleutels.
  destruct (dict_get vb "gas") as [g |]; [| discriminate].
  destruct (dict_get vb "elektra") as [e |]; [| discriminate].
  destruct (dict_get vb "diesel") as [d |]; [| discriminate].
  cbn [fst]. intros H. injection H as <-.
  cbn [verbruik_tabel_data emissie_tabel_data factoren_tabel_data].
  split; [now repeat constructor |].
  split; [apply drie_kolommen_emissie |].
  split; [apply drie_kolommen_factoren |].
  split; [reflexivity |].
  unfold emissie_tabel_spec, factoren_tabel_spec. cbn [length].
  rewrite length_app, !length_map. cbn [length]. lia.
Qed.

Lemma X14_witness :
  drie_kolommen (verbruik_tabel_data voorbeeld_rapport) /\
  drie_kolommen (emissie_tabel_data voorbeeld_rapport) /\
  drie_kolommen (factoren_tabel_data voorbeeld_rapport) /\
  length (verbruik_tabel_data voorbeeld_rapport) = 5%nat /\
  length (emissie_tabel_data voorbeeld_rapport)
    = (length [("Aardgas", dec 208.5); ("Elektriciteit", dec 160.8)] + 2)%nat /\
  length (factoren_tabel_data voorbeeld_rapport)
    = (length (g_factoren startup) + 1)%nat.
Proof.
  apply (X14_tabellen_drie_kolommen
           [("Aardgas", dec 208.5); ("Elektriciteit", dec 160.8)]
           (verbruik_dict (dec 100) (dec 300) 0) (dec 369.3) "Grijze stroom"
           startup voorbeeld_rapport).
  vm_compute. reflexivity.
Defined.




(** ** Further properties: the sidebar *)

(** X16.  The factors the sidebar text quotes are the factors the program
    computes with: for every entry of the factor table, in the table's
    order, the sidebar has the bullet of that carrier with the entry's
    factor to three decimals (written with a decimal comma) and its unit,
    and it has no other bullet. *)
Theorem X16_sidebar_factoren :
  map (fun d => snd (fst d)) dragers = keys EMISSIEFACTOREN /\
  map (fun d =>
         option_map (fun f => sidebar_regel (fst (fst d)) f (snd d))
                    (dict_get EMISSIEFACTOREN (snd (fst d))))
      dragers
  = map Some (filter (fun regel => String.prefix "        - " regel) sidebar_regels).
Proof. split; vm_compute; reflexivity. Qed.

(** ** Further properties: redraws, the chart on the page, and the total *)



Lemma clamp_mono (x y : Qc) : x <= y -> clamp x <= clamp y.
Proof.
  intros H. unfold clamp.
  destruct (Qc_gtb x 0) eqn:Ex, (Qc_gtb y 0) eqn:Ey.
  - exact H.
  - apply Qc_gtb_true in Ex. apply Qc_gtb_false in Ey.
    exfalso. apply (Qclt_not_le _ _ Ex). now apply Qcle_trans with y.
  - apply Qc_gtb_true in Ey. now apply Qclt_le_weak.
  - apply Qcle_refl.
Qed.

(** X18.  The total of the calculator's result never goes down when a
    quantity goes up, and with the green tariff it is never above the
    total with the grey tariff for the same quantities. *)
Theorem X18_totaal_monotoon g1 e1 d1 g2 e2 d2 t ss pg :
  g1 <= g2 -> e1 <= e2 -> d1 <= d2 ->
  exists em1 em2 groen grijs,
    fst (bereken_emissies g1 e1 (tarief_label t) d1 (loaded ss pg)) = Ok em1 /\
    fst (bereken_emissies g2 e2 (tarief_label t) d2 (loaded ss pg)) = Ok em2 /\
    fst (bereken_emissies g1 e1 "Groene stroom" d1 (loaded ss pg)) = Ok groen /\
    fst (bereken_emissies g1 e1 "Grijze stroom" d1 (loaded ss pg)) = Ok grijs /\
    sum (values em1) <= sum (values em2) /\
    sum (values groen) <= sum (values grijs).
Proof.
  intros Hg He Hd.
  exists (emissies_spec g1 e1 t d1), (emissies_spec g2 e2 t d2),
         (emissies_spec g1 e1 Groen d1), (emissies_spec g1 e1 Grijs d1).
  rewrite !bereken_emissies_loaded.
  rewrite (bereken_emissies_loaded g1 e1 Groen), (bereken_emissies_loaded g1 e1 Grijs).
  repeat (split; [reflexivity |]).
  apply clamp_mono in Hg, He, Hd.
  pose proof (clamp_nonneg e1) as He1.
  unfold Qcle in *. rewrite !emissies_spec_sum_Q.
  change (this 0) with 0%Q in *.
  destruct this_dec_factors as (_ & _ & F1 & F0).
  split.
  - destruct t; cbn [tarief_factor]; rewrite ?F1, ?F0; lra.
  - cbn [tarief_factor]. rewrite ?F1, ?F0. lra.
Qed.

Lemma X18_witness :
  exists em1 em2 groen grijs,
    fst (bereken_emissies (dec 100) 0 (tarief_label Grijs) 0 (loaded leeg [])) = Ok em1 /\
    fst (bereken_emissies (dec 100) (dec 300) (tarief_label Grijs) 0 (loaded leeg []))
      = Ok em2 /\
    fst (bereken_emissies (dec 100) 0 "Groene stroom" 0 (loaded leeg [])) = Ok groen /\
    fst (bereken_emissies (dec 100) 0 "Grijze stroom" 0 (loaded leeg [])) = Ok grijs /\
    sum (values em1) <= sum (values em2) /\
    sum (values groen) <= sum (values grijs).
Proof.
  apply (X18_totaal_monotoon (dec 100) 0 0 (dec 100) (dec 300) 0 Grijs leeg []);
    qc_le.
Defined.



